(** * Samsung EA8074 DSI panel driver: power sequencing, mode and backlight

    A shallow embedding of [drivers/gpu/drm/panel/panel-samsung-ea8074.c].
    The driver's functions are written in a small state monad with an early
    [return], statement by statement as in the C source.  The DSI host, the
    reset GPIO, the sleeps and the kernel log are the driver's environment:
    every call the driver makes on them is appended to a trace, and the
    replies of the DSI host are given by an oracle. *)

From Stdlib Require Import ZArith List String Bool Lia.
Import ListNotations.
Open Scope Z_scope.

(** ** C integer types *)

Module CInt.

(** [int]: 32 bits, two's complement. *)
Definition int (z : Z) : Z := (z + 2 ^ 31) mod 2 ^ 32 - 2 ^ 31.

(** [u16]: conversion to a 16-bit unsigned value. *)
Definition u16 (z : Z) : Z := z mod 2 ^ 16.

(** [unsigned long] on a 64-bit kernel, and its [~]. *)
Definition ulong (z : Z) : Z := z mod 2 ^ 64.
Definition ulong_not (z : Z) : Z := Z.lxor (ulong z) (2 ^ 64 - 1).

Definition add (a b : Z) : Z := int (a + b).
Definition mul (a b : Z) : Z := int (a * b).
Definition div (a b : Z) : Z := int (Z.quot a b).

End CInt.

(** ** The display mode (struct drm_display_mode, the fields the driver sets) *)

Record drm_display_mode := {
  clock : Z;
  hdisplay : Z; hsync_start : Z; hsync_end : Z; htotal : Z;
  vdisplay : Z; vsync_start : Z; vsync_end : Z; vtotal : Z;
  width_mm : Z; height_mm : Z
}.

Module ModeSyntax.
Declare Scope cint_scope.
Delimit Scope cint_scope with cint.
Infix "+" := CInt.add : cint_scope.
Infix "*" := CInt.mul : cint_scope.
Infix "/" := CInt.div : cint_scope.
End ModeSyntax.
Import ModeSyntax.

Definition samsung_ea8074_mode : drm_display_mode := {|
  clock := ((1080 + 48 + 16 + 48) * (2160 + 20 + 12 + 28) * 60 / 1000)%cint;
  hdisplay := 1080;
  hsync_start := (1080 + 48)%cint;
  hsync_end := (1080 + 48 + 16)%cint;
  htotal := (1080 + 48 + 16 + 48)%cint;
  vdisplay := 2160;
  vsync_start := (2160 + 20)%cint;
  vsync_end := (2160 + 20 + 12)%cint;
  vtotal := (2160 + 20 + 12 + 28)%cint;
  width_mm := 68;
  height_mm := 137
|}.

(** ** Constants of kernel headers

    [video/mipi_display.h] and [drm/drm_mipi_dsi.h] are not part of the
    driver; the constants the driver takes from them are parameters of the
    model.  [upstream_headers] gives the values of the mainline headers. *)

Class headers := {
  MIPI_DCS_WRITE_MEMORY_START : Z;
  MIPI_DCS_WRITE_CONTROL_DISPLAY : Z;
  MIPI_DCS_WRITE_POWER_SAVE : Z;
  MIPI_DSI_DCS_TEAR_MODE_VBLANK : Z;
  MIPI_DSI_MODE_VIDEO_BURST : Z;
  MIPI_DSI_CLOCK_NON_CONTINUOUS : Z;
  MIPI_DSI_MODE_LPM : Z
}.

Definition BIT (n : Z) : Z := Z.shiftl 1 n.

Definition upstream_headers : headers := {|
  MIPI_DCS_WRITE_MEMORY_START := 0x2c;
  MIPI_DCS_WRITE_CONTROL_DISPLAY := 0x53;
  MIPI_DCS_WRITE_POWER_SAVE := 0x55;
  MIPI_DSI_DCS_TEAR_MODE_VBLANK := 0;
  MIPI_DSI_MODE_VIDEO_BURST := BIT 1;
  MIPI_DSI_CLOCK_NON_CONTINUOUS := BIT 10;
  MIPI_DSI_MODE_LPM := BIT 11
|}.

(** ** The environment *)

(** A transfer the driver asks of the DSI host, named after the
    [mipi_dsi_dcs_*] helper that issues it. *)
Inductive dcs :=
| exit_sleep_mode
| enter_sleep_mode
| set_display_on
| set_display_off
| set_column_address (first last : Z)
| set_page_address (first last : Z)
| set_tear_on (mode : Z)
| set_display_brightness (brightness : Z)
| set_display_brightness_large (brightness : Z)
| get_display_brightness_large
| write_seq (cmd : Z) (seq : list Z).

(** What the host answers: the helper's [int] result (negative: an errno)
    and, for a read, the value stored through the out-pointer. *)
Record reply := { status : Z; payload : Z }.

(** A blocking sleep: [usleep_range(min, max)] or [msleep(msecs)]. *)
Inductive delay :=
| Usleep (min max : Z)
| Msleep (msecs : Z).

Inductive event :=
| Xfer (c : dcs)
| Gpio (value : Z)
| Sleep (d : delay).

(** The driver's state ([struct samsung_ea8074] and [dsi->mode_flags]), the
    level last driven on the reset GPIO, and what the environment has seen:
    [trace], oldest event first, and [dmesg], the [dev_err] lines as format
    string and arguments. *)
Record world := {
  prepared : bool;
  mode_flags : Z;
  reset_gpio : Z;
  trace : list event;
  dmesg : list (string * list Z)
}.

Definition with_prepared (b : bool) (w : world) : world :=
  {| prepared := b; mode_flags := mode_flags w; reset_gpio := reset_gpio w;
     trace := trace w; dmesg := dmesg w |}.
Definition with_mode_flags (f : Z) (w : world) : world :=
  {| prepared := prepared w; mode_flags := f; reset_gpio := reset_gpio w;
     trace := trace w; dmesg := dmesg w |}.
Definition with_reset_gpio (v : Z) (w : world) : world :=
  {| prepared := prepared w; mode_flags := mode_flags w; reset_gpio := v;
     trace := trace w; dmesg := dmesg w |}.
Definition emit (e : event) (w : world) : world :=
  {| prepared := prepared w; mode_flags := mode_flags w;
     reset_gpio := reset_gpio w; trace := trace w ++ [e]; dmesg := dmesg w |}.
Definition printk (fmt : string) (args : list Z) (w : world) : world :=
  {| prepared := prepared w; mode_flags := mode_flags w;
     reset_gpio := reset_gpio w; trace := trace w;
     dmesg := dmesg w ++ [(fmt, args)] |}.

(** Several events at once: [emits [e1; e2] w] is [emit e2 (emit e1 w)]. *)
Definition emits (es : list event) (w : world) : world :=
  {| prepared := prepared w; mode_flags := mode_flags w;
     reset_gpio := reset_gpio w; trace := trace w ++ es; dmesg := dmesg w |}.

(** The transfers of a trace, in order, and their number. *)
Fixpoint transfers (t : list event) : list dcs :=
  match t with
  | [] => []
  | Xfer c :: t' => c :: transfers t'
  | _ :: t' => transfers t'
  end.

Definition xfers (w : world) : nat := List.length (transfers (trace w)).

(** ** Statements: a state monad with early return *)

Inductive flow (A : Type) :=
| Next (a : A)
| Return (r : Z).
Arguments Next {A} a.
Arguments Return {A} r.

Definition stmt (A : Type) : Type := world -> flow A * world.

(** A function body: every path through it ends in [return]. *)
Definition body : Type := stmt Empty_set.

Definition pure {A} (a : A) : stmt A := fun w => (Next a, w).
Definition c_return {A} (r : Z) : stmt A := fun w => (Return r, w).
Definition bind {A B} (m : stmt A) (k : A -> stmt B) : stmt B :=
  fun w =>
    match m w with
    | (Next a, w') => k a w'
    | (Return r, w') => (Return r, w')
    end.

Declare Scope stmt_scope.
Delimit Scope stmt_scope with stmt.
Notation "x <- m ;; k" := (bind m (fun x => k))
  (at level 61, m at next level, right associativity) : stmt_scope.
Notation "' p <- m ;; k" := (bind m (fun x => match x with p => k end))
  (at level 61, p pattern, m at next level, right associativity) : stmt_scope.
Notation "m ;; k" := (bind m (fun _ => k))
  (at level 61, right associativity) : stmt_scope.
Open Scope stmt_scope.

(** [if (c) { ...; return r; }] *)
Definition when (c : bool) (m : body) : stmt unit :=
  fun w =>
    if c then
      match m w with
      | (Return r, w') => (Return r, w')
      | (Next a, _) => match a with end
      end
    else (Next tt, w).

(** [if (c) stmt;] *)
Definition when' (c : bool) (m : stmt unit) : stmt unit :=
  if c then m else pure tt.

(** Running a function body, and calling a function from a statement. *)
Definition run (b : body) (w : world) : Z * world :=
  match b w with
  | (Return r, w') => (r, w')
  | (Next a, _) => match a with end
  end.

Definition call (f : world -> Z * world) : stmt Z :=
  fun w => let (r, w') := f w in (Next r, w').

Definition get {A} (f : world -> A) : stmt A := fun w => (Next (f w), w).
Definition modify (f : world -> world) : stmt unit := fun w => (Next tt, f w).

(** ** The driver *)

Section Driver.

Context {hdr : headers}.

(** The DSI host: [bus n] answers the [n]-th transfer made on it. *)
Variable bus : nat -> reply.

(** *** Kernel services the driver calls *)

Definition gpiod_set_value_cansleep (value : Z) : stmt unit :=
  modify (fun w => emit (Gpio value) (with_reset_gpio value w)).

Definition usleep_range (min max : Z) : stmt unit :=
  modify (emit (Sleep (Usleep min max))).

Definition msleep (msecs : Z) : stmt unit :=
  modify (emit (Sleep (Msleep msecs))).

Definition dev_err (fmt : string) (args : list Z) : stmt unit :=
  modify (printk fmt args).

Definition transfer (c : dcs) : stmt reply :=
  fun w => (Next (bus (xfers w)), emit (Xfer c) w).

Definition mipi_dsi_dcs (c : dcs) : stmt Z :=
  r <- transfer c ;; pure (status r).

Definition mipi_dsi_dcs_exit_sleep_mode := mipi_dsi_dcs exit_sleep_mode.
Definition mipi_dsi_dcs_enter_sleep_mode := mipi_dsi_dcs enter_sleep_mode.
Definition mipi_dsi_dcs_set_display_on := mipi_dsi_dcs set_display_on.
Definition mipi_dsi_dcs_set_display_off := mipi_dsi_dcs set_display_off.
Definition mipi_dsi_dcs_set_column_address (s e : Z) :=
  mipi_dsi_dcs (set_column_address s e).
Definition mipi_dsi_dcs_set_page_address (s e : Z) :=
  mipi_dsi_dcs (set_page_address s e).
Definition mipi_dsi_dcs_set_tear_on (mode : Z) :=
  mipi_dsi_dcs (set_tear_on mode).
Definition mipi_dsi_dcs_set_display_brightness (b : Z) :=
  mipi_dsi_dcs (set_display_brightness b).
Definition mipi_dsi_dcs_set_display_brightness_large (b : Z) :=
  mipi_dsi_dcs (set_display_brightness_large b).

(** The read helper stores a [u16] through its out-pointer; the pair is
    its result and the value stored. *)
Definition mipi_dsi_dcs_get_display_brightness_large : stmt (Z * Z) :=
  r <- transfer get_display_brightness_large ;;
  pure (status r, CInt.u16 (payload r)).

(** Modelled from the spec: the macro [mipi_dsi_dcs_write_seq] of
    [drm/drm_mipi_dsi.h], which is not among the sources.  A step that
    fails aborts the remaining steps of the sequence and returns the
    error, with a diagnostic; otherwise the sequence goes on. *)
Definition mipi_dsi_dcs_write_seq (cmd : Z) (seq : list Z) : stmt unit :=
  ret <- mipi_dsi_dcs (write_seq cmd seq) ;;
  when (ret <? 0)
    (dev_err "sending command %#02x failed: %d\n" [cmd; ret] ;;
     c_return ret).

(** *** panel-samsung-ea8074.c *)

Definition samsung_ea8074_reset : stmt unit :=
  gpiod_set_value_cansleep 0 ;;
  usleep_range 1000 2000 ;;
  gpiod_set_value_cansleep 1 ;;
  usleep_range 1000 2000 ;;
  gpiod_set_value_cansleep 0 ;;
  usleep_range 10000 11000.

Definition samsung_ea8074_on : world -> Z * world := run (
  ret <- mipi_dsi_dcs_exit_sleep_mode ;;
  when (ret <? 0)
    (dev_err "Failed to exit sleep mode: %d\n" [ret] ;; c_return ret) ;;
  usleep_range 10000 11000 ;;

  ret <- mipi_dsi_dcs_set_column_address 0x0000 0x0437 ;;
  when (ret <? 0)
    (dev_err "Failed to set column address: %d\n" [ret] ;; c_return ret) ;;
  usleep_range 10000 11000 ;;

  ret <- mipi_dsi_dcs_set_page_address 0x0000 0x086f ;;
  when (ret <? 0)
    (dev_err "Failed to set page address: %d\n" [ret] ;; c_return ret) ;;
  usleep_range 10000 11000 ;;

  ret <- mipi_dsi_dcs_set_tear_on MIPI_DSI_DCS_TEAR_MODE_VBLANK ;;
  when (ret <? 0)
    (dev_err "Failed to set tear on: %d\n" [ret] ;; c_return ret) ;;
  usleep_range 10000 11000 ;;

  mipi_dsi_dcs_write_seq MIPI_DCS_WRITE_CONTROL_DISPLAY [0x20] ;;
  usleep_range 10000 11000 ;;

  ret <- mipi_dsi_dcs_set_display_brightness 0x0000 ;;
  when (ret <? 0)
    (dev_err "Failed to set display brightness: %d\n" [ret] ;;
     c_return ret) ;;
  usleep_range 10000 11000 ;;

  mipi_dsi_dcs_write_seq MIPI_DCS_WRITE_POWER_SAVE [0x00] ;;
  usleep_range 10000 11000 ;;
  mipi_dsi_dcs_write_seq 0xf0 [0x5a; 0x5a] ;;
  usleep_range 10000 11000 ;;
  mipi_dsi_dcs_write_seq 0xb0 [0x06] ;;
  usleep_range 10000 11000 ;;
  mipi_dsi_dcs_write_seq 0xef [0x35] ;;
  usleep_range 10000 11000 ;;
  mipi_dsi_dcs_write_seq 0xcc [0x55; 0x12] ;;
  usleep_range 10000 11000 ;;
  mipi_dsi_dcs_write_seq 0xfc [0x5a; 0x5a] ;;
  usleep_range 10000 11000 ;;
  mipi_dsi_dcs_write_seq 0xb0 [0x01] ;;
  usleep_range 10000 11000 ;;
  mipi_dsi_dcs_write_seq 0xd2 [0x20] ;;
  usleep_range 10000 11000 ;;
  mipi_dsi_dcs_write_seq 0xb0 [0x05] ;;
  usleep_range 10000 11000 ;;
  mipi_dsi_dcs_write_seq 0xd2 [0x40] ;;
  usleep_range 10000 11000 ;;
  mipi_dsi_dcs_write_seq 0xfc [0xa5; 0xa5] ;;
  usleep_range 10000 11000 ;;
  mipi_dsi_dcs_write_seq 0xf0 [0xa5; 0xa5] ;;
  msleep 110 ;;
  mipi_dsi_dcs_write_seq MIPI_DCS_WRITE_MEMORY_START [] ;;
  usleep_range 10000 11000 ;;

  ret <- mipi_dsi_dcs_set_display_on ;;
  when (ret <? 0)
    (dev_err "Failed to set display on: %d\n" [ret] ;; c_return ret) ;;
  usleep_range 10000 11000 ;;

  mipi_dsi_dcs_write_seq 0xf0 [0x5a; 0x5a] ;;
  usleep_range 10000 11000 ;;
  mipi_dsi_dcs_write_seq 0xb0 [0x05] ;;
  usleep_range 10000 11000 ;;
  mipi_dsi_dcs_write_seq 0xb1 [0x40] ;;
  usleep_range 10000 11000 ;;
  mipi_dsi_dcs_write_seq 0xb0 [0x03] ;;
  usleep_range 10000 11000 ;;
  mipi_dsi_dcs_write_seq 0xb6 [0xa2] ;;
  usleep_range 10000 11000 ;;
  mipi_dsi_dcs_write_seq 0xf0 [0xa5; 0xa5] ;;
  usleep_range 10000 11000 ;;

  ret <- mipi_dsi_dcs_set_display_on ;;
  when (ret <? 0)
    (dev_err "Failed to set display on: %d\n" [ret] ;; c_return ret) ;;
  msleep 120 ;;

  c_return 0).

Definition samsung_ea8074_off : world -> Z * world := run (
  ret <- mipi_dsi_dcs_set_display_off ;;
  when (ret <? 0)
    (dev_err "Failed to set display off: %d\n" [ret] ;; c_return ret) ;;

  ret <- mipi_dsi_dcs_enter_sleep_mode ;;
  when (ret <? 0)
    (dev_err "Failed to enter sleep mode: %d\n" [ret] ;; c_return ret) ;;
  msleep 120 ;;

  c_return 0).

Definition samsung_ea8074_prepare : world -> Z * world := run (
  p <- get prepared ;;
  when p (c_return 0) ;;

  samsung_ea8074_reset ;;

  ret <- call samsung_ea8074_on ;;
  when (ret <? 0)
    (dev_err "Failed to initialize panel: %d\n" [ret] ;;
     gpiod_set_value_cansleep 1 ;;
     c_return ret) ;;

  modify (with_prepared true) ;;
  c_return 0).

Definition samsung_ea8074_unprepare : world -> Z * world := run (
  p <- get prepared ;;
  when (negb p) (c_return 0) ;;

  ret <- call samsung_ea8074_off ;;
  when' (ret <? 0)
    (dev_err "Failed to un-initialize panel: %d\n" [ret]) ;;

  gpiod_set_value_cansleep 1 ;;

  modify (with_prepared false) ;;
  c_return 0).

(** The backlight operations.  [requested] is what
    [backlight_get_brightness(bl)] returns. *)
Definition samsung_ea8074_bl_update_status (requested : Z)
  : world -> Z * world := run (
  let brightness := CInt.u16 requested in

  modify (fun w => with_mode_flags
    (Z.land (mode_flags w) (CInt.ulong_not MIPI_DSI_MODE_LPM)) w) ;;

  ret <- mipi_dsi_dcs_set_display_brightness_large brightness ;;
  when (ret <? 0) (c_return ret) ;;

  modify (fun w => with_mode_flags
    (Z.lor (mode_flags w) MIPI_DSI_MODE_LPM) w) ;;

  c_return 0).

Definition samsung_ea8074_bl_get_brightness : world -> Z * world := run (
  modify (fun w => with_mode_flags
    (Z.land (mode_flags w) (CInt.ulong_not MIPI_DSI_MODE_LPM)) w) ;;

  '(ret, brightness) <- mipi_dsi_dcs_get_display_brightness_large ;;
  when (ret <? 0) (c_return ret) ;;

  modify (fun w => with_mode_flags
    (Z.lor (mode_flags w) MIPI_DSI_MODE_LPM) w) ;;

  c_return brightness).

(** The state [samsung_ea8074_probe] leaves: the context zeroed, the reset
    GPIO requested with [GPIOD_OUT_HIGH], the mode flags set. *)
Definition probed : world := {|
  prepared := false;
  mode_flags := Z.lor (Z.lor MIPI_DSI_MODE_VIDEO_BURST
                             MIPI_DSI_CLOCK_NON_CONTINUOUS)
                      MIPI_DSI_MODE_LPM;
  reset_gpio := 1;
  trace := [];
  dmesg := []
|}.

(** *** The power-on sequence as a table

    A second view of [samsung_ea8074_on], used to reason about all of its
    steps at once: one entry per command, with the transfer, the diagnostic
    printed when it fails and the delay that follows it.  The function above
    is the embedding of the source; [on_is_sequence] shows that it is the
    sequencer below run on this table. *)

Record step := {
  cmd : dcs;
  report : Z -> string * list Z;
  settle : delay
}.

Definition short_settle : delay := Usleep 10000 11000.

Definition checked (c : dcs) (fmt : string) (d : delay) : step :=
  {| cmd := c; report := fun ret => (fmt, [ret]); settle := d |}.

Definition seq_write (op : Z) (seq : list Z) (d : delay) : step :=
  {| cmd := write_seq op seq;
     report := fun ret => ("sending command %#02x failed: %d\n"%string,
                           [op; ret]);
     settle := d |}.

Definition on_steps : list step := [
  checked exit_sleep_mode "Failed to exit sleep mode: %d\n" short_settle;
  checked (set_column_address 0x0000 0x0437)
          "Failed to set column address: %d\n" short_settle;
  checked (set_page_address 0x0000 0x086f)
          "Failed to set page address: %d\n" short_settle;
  checked (set_tear_on MIPI_DSI_DCS_TEAR_MODE_VBLANK)
          "Failed to set tear on: %d\n" short_settle;
  seq_write MIPI_DCS_WRITE_CONTROL_DISPLAY [0x20] short_settle;
  checked (set_display_brightness 0x0000)
          "Failed to set display brightness: %d\n" short_settle;
  seq_write MIPI_DCS_WRITE_POWER_SAVE [0x00] short_settle;
  seq_write 0xf0 [0x5a; 0x5a] short_settle;
  seq_write 0xb0 [0x06] short_settle;
  seq_write 0xef [0x35] short_settle;
  seq_write 0xcc [0x55; 0x12] short_settle;
  seq_write 0xfc [0x5a; 0x5a] short_settle;
  seq_write 0xb0 [0x01] short_settle;
  seq_write 0xd2 [0x20] short_settle;
  seq_write 0xb0 [0x05] short_settle;
  seq_write 0xd2 [0x40] short_settle;
  seq_write 0xfc [0xa5; 0xa5] short_settle;
  seq_write 0xf0 [0xa5; 0xa5] (Msleep 110);
  seq_write MIPI_DCS_WRITE_MEMORY_START [] short_settle;
  checked set_display_on "Failed to set display on: %d\n" short_settle;
  seq_write 0xf0 [0x5a; 0x5a] short_settle;
  seq_write 0xb0 [0x05] short_settle;
  seq_write 0xb1 [0x40] short_settle;
  seq_write 0xb0 [0x03] short_settle;
  seq_write 0xb6 [0xa2] short_settle;
  seq_write 0xf0 [0xa5; 0xa5] short_settle;
  checked set_display_on "Failed to set display on: %d\n" (Msleep 120)
].

(** The sequencer: send, stop at the first failure, else wait and go on. *)
Fixpoint sequence (steps : list step) : body :=
  match steps with
  | [] => c_return 0
  | s :: rest =>
      ret <- mipi_dsi_dcs (cmd s) ;;
      when (ret <? 0)
        (dev_err (fst (report s ret)) (snd (report s ret)) ;;
         c_return ret) ;;
      modify (emit (Sleep (settle s))) ;;
      sequence rest
  end.

(** What a run of the given steps without failure leaves in the trace. *)
Definition step_events (steps : list step) : list event :=
  flat_map (fun s => [Xfer (cmd s); Sleep (settle s)]) steps.

Definition on_cmds : list dcs := map cmd on_steps.

(** The commands of the sequence that set up and start the display. *)
Definition column_address := set_column_address 0x0000 0x0437.
Definition page_address := set_page_address 0x0000 0x086f.
Definition memory_start := write_seq MIPI_DCS_WRITE_MEMORY_START [].

(** The events of the reset pulse. *)
Definition reset_pulse : list event :=
  [Gpio 0; Sleep (Usleep 1000 2000); Gpio 1; Sleep (Usleep 1000 2000);
   Gpio 0; Sleep (Usleep 10000 11000)].

(** The world once [samsung_ea8074_reset] has run: the line pulsed and
    left released. *)
Definition after_reset (w : world) : world :=
  emits reset_pulse (with_reset_gpio 0 w).

(** The world once the first power-off command has been sent. *)
Definition display_off_sent (w : world) : world :=
  emit (Xfer set_display_off) w.

(** The host answers the [n] transfers that follow [w] without error. *)
Definition healthy (w : world) (n : nat) : Prop :=
  forall i, (i < n)%nat -> 0 <= status (bus (xfers w + i)).

(** The host answers [k] transfers after [w] without error and fails the
    next one. *)
Definition fails_at (w : world) (k : nat) : Prop :=
  healthy w k /\ status (bus (xfers w + k)) < 0.

End Driver.

(** [a] comes before [b] in [l]: wherever [b] stands, [a] stands earlier. *)
Definition precedes {A} (a b : A) (l : list A) : Prop :=
  forall j, nth_error l j = Some b ->
  exists i, (i < j)%nat /\ nth_error l i = Some a.

(** The transfers the driver distinguishes in its sequences. *)
Definition is_display_on (c : dcs) : bool :=
  match c with set_display_on => true | _ => false end.

Definition count_display_on (es : list event) : nat :=
  List.length (filter is_display_on (transfers es)).

(** Hosts to run the driver against: one that answers every transfer with
    [value], one that fails transfer number [k] with [errno]. *)
Definition answering (value : Z) : nat -> reply :=
  fun _ => {| status := 0; payload := value |}.

Definition failing (k : nat) (errno : Z) : nat -> reply :=
  fun n => if Nat.eqb n k then {| status := errno; payload := 0 |}
           else {| status := 0; payload := 0 |}.

Definition EIO : Z := 5.

(** A panel as [probe] leaves it with the mainline headers, and the same
    panel once prepared. *)
Definition probed_panel : world := probed (hdr := upstream_headers).
Definition prepared_panel : world := with_prepared true probed_panel.

(** The low-power-mode flag of [dsi->mode_flags]. *)
Definition lpm `{headers} (w : world) : Z :=
  Z.land (mode_flags w) MIPI_DSI_MODE_LPM.

(** ** The rest of the panel driver *)

(** What a sleep guarantees: the time it lasts at least, in microseconds. *)
Definition min_usecs (d : delay) : Z :=
  match d with
  | Usleep min _ => min
  | Msleep msecs => 1000 * msecs
  end.

(** Constants of [uapi/drm/drm_mode.h], [drm/drm_mipi_dsi.h] and
    [uapi/asm-generic/errno-base.h] that [get_modes] and [probe] use; like
    [headers], parameters of the model. *)
Class drm_headers := {
  DRM_MODE_TYPE_DRIVER : Z;
  DRM_MODE_TYPE_PREFERRED : Z;
  MIPI_DSI_FMT_RGB888 : Z;
  ENOMEM : Z
}.

Definition upstream_drm_headers : drm_headers := {|
  DRM_MODE_TYPE_DRIVER := BIT 6;
  DRM_MODE_TYPE_PREFERRED := BIT 3;
  MIPI_DSI_FMT_RGB888 := 0;
  ENOMEM := 12
|}.

(** *** get_modes *)

(** A mode object of the DRM core: the timings, with the [type] flags and
    the [name] that [struct drm_display_mode] also holds. *)
Record mode_object := {
  timing : drm_display_mode;
  mode_type : Z;
  mode_name : string
}.

(** The part of [struct drm_connector] the driver writes. *)
Record drm_connector := {
  probed_modes : list mode_object;
  info_width_mm : Z;
  info_height_mm : Z
}.

Section GetModes.

Context {dh : drm_headers}.

(** [drm_mode_set_name] writes the name the DRM core derives from the
    timings. *)
Variable name_of : drm_display_mode -> string.

(** [drm_mode_duplicate]: NULL when the allocation fails, else a copy; the
    static mode has neither type flags nor name. *)
Definition drm_mode_duplicate (alloc_ok : bool) (m : drm_display_mode)
  : option mode_object :=
  if alloc_ok
  then Some {| timing := m; mode_type := 0; mode_name := EmptyString |}
  else None.

Definition drm_mode_set_name (m : mode_object) : mode_object :=
  {| timing := timing m; mode_type := mode_type m;
     mode_name := name_of (timing m) |}.

(** [drm_mode_probed_add]: the mode goes to the tail of the connector's
    list of probed modes. *)
Definition drm_mode_probed_add (c : drm_connector) (m : mode_object)
  : drm_connector :=
  {| probed_modes := probed_modes c ++ [m];
     info_width_mm := info_width_mm c;
     info_height_mm := info_height_mm c |}.

Definition samsung_ea8074_get_modes (alloc_ok : bool)
  (connector : drm_connector) : Z * drm_connector :=
  match drm_mode_duplicate alloc_ok samsung_ea8074_mode with
  | None => (- ENOMEM, connector)
  | Some mode =>
      let mode := drm_mode_set_name mode in
      let mode :=
        {| timing := timing mode;
           mode_type := Z.lor DRM_MODE_TYPE_DRIVER DRM_MODE_TYPE_PREFERRED;
           mode_name := mode_name mode |} in
      let connector :=
        {| probed_modes := probed_modes connector;
           info_width_mm := width_mm (timing mode);
           info_height_mm := info_height_mm connector |} in
      let connector :=
        {| probed_modes := probed_modes connector;
           info_width_mm := info_width_mm connector;
           info_height_mm := height_mm (timing mode) |} in
      let connector := drm_mode_probed_add connector mode in
      (1, connector)
  end.

End GetModes.

(** *** probe and remove *)

(** The result of a call that returns a pointer or an [ERR_PTR]:
    [IS_ERR] holds of [ptr_err e], and [PTR_ERR] is [e]. *)
Inductive ptr_result :=
| ptr_ok
| ptr_err (e : Z).

(** What the kernel answers to the calls of [probe] and [remove]. *)
Record bind_env := {
  kzalloc_ok : bool;
  gpiod_get : ptr_result;
  backlight_register : ptr_result;
  attach_ret : Z;
  detach_ret : Z
}.

(** [struct backlight_properties], the fields the driver sets. *)
Record backlight_properties := {
  bl_raw : bool;
  bl_brightness : Z;
  bl_max_brightness : Z
}.

(** The calls [probe] and [remove] make on the kernel, in order. *)
Inductive bind_call :=
| devm_kzalloc
| devm_gpiod_get_reset_out_high
| mipi_dsi_set_drvdata
| drm_panel_init
| devm_backlight_device_register (props : backlight_properties)
| drm_panel_add
| mipi_dsi_attach
| mipi_dsi_detach
| drm_panel_remove.

(** The DSI device and the panel as [probe] and [remove] see them:
    [panel_added] says whether the panel is on the DRM core's list. *)
Record binding := {
  dsi_lanes : Z;
  dsi_format : Z;
  dsi_mode_flags : Z;
  ctx_prepared : bool;
  prepare_prev_first : bool;
  panel_added : bool;
  calls : list bind_call;
  klog : list (string * list Z)
}.

Definition called (c : bind_call) (b : binding) : binding :=
  {| dsi_lanes := dsi_lanes b; dsi_format := dsi_format b;
     dsi_mode_flags := dsi_mode_flags b; ctx_prepared := ctx_prepared b;
     prepare_prev_first := prepare_prev_first b;
     panel_added :=
       match c with
       | drm_panel_add => true
       | drm_panel_remove => false
       | _ => panel_added b
       end;
     calls := calls b ++ [c]; klog := klog b |}.

Definition logged (fmt : string) (args : list Z) (b : binding) : binding :=
  {| dsi_lanes := dsi_lanes b; dsi_format := dsi_format b;
     dsi_mode_flags := dsi_mode_flags b; ctx_prepared := ctx_prepared b;
     prepare_prev_first := prepare_prev_first b;
     panel_added := panel_added b;
     calls := calls b; klog := klog b ++ [(fmt, args)] |}.

Section Bind.

Context {hdr : headers} {dh : drm_headers}.
Variable env : bind_env.

Definition samsung_ea8074_create_backlight (b : binding)
  : ptr_result * binding :=
  let props :=
    {| bl_raw := true; bl_brightness := 1023; bl_max_brightness := 1023 |} in
  (backlight_register env, called (devm_backlight_device_register props) b).

Definition samsung_ea8074_probe (b : binding) : Z * binding :=
  let b := called devm_kzalloc b in
  if negb (kzalloc_ok env) then (- ENOMEM, b) else
  (* the context is zeroed *)
  let b :=
    {| dsi_lanes := dsi_lanes b; dsi_format := dsi_format b;
       dsi_mode_flags := dsi_mode_flags b; ctx_prepared := false;
       prepare_prev_first := false; panel_added := panel_added b;
       calls := calls b; klog := klog b |} in
  let b := called devm_gpiod_get_reset_out_high b in
  match gpiod_get env with
  | ptr_err e => (e, logged "Failed to get reset-gpios\n" [e] b)
  | ptr_ok =>
      let b := called mipi_dsi_set_drvdata b in
      let b :=
        {| dsi_lanes := 4; dsi_format := MIPI_DSI_FMT_RGB888;
           dsi_mode_flags :=
             Z.lor (Z.lor MIPI_DSI_MODE_VIDEO_BURST
                          MIPI_DSI_CLOCK_NON_CONTINUOUS)
                   MIPI_DSI_MODE_LPM;
           ctx_prepared := ctx_prepared b;
           prepare_prev_first := prepare_prev_first b;
           panel_added := panel_added b;
           calls := calls b; klog := klog b |} in
      let b := called drm_panel_init b in
      let b :=
        {| dsi_lanes := dsi_lanes b; dsi_format := dsi_format b;
           dsi_mode_flags := dsi_mode_flags b;
           ctx_prepared := ctx_prepared b;
           prepare_prev_first := true;
           panel_added := panel_added b;
           calls := calls b; klog := klog b |} in
      let (backlight, b) := samsung_ea8074_create_backlight b in
      match backlight with
      | ptr_err e => (e, logged "Failed to create backlight\n" [e] b)
      | ptr_ok =>
          let b := called drm_panel_add b in
          let ret := attach_ret env in
          let b := called mipi_dsi_attach b in
          if ret <? 0 then
            let b := logged "Failed to attach to DSI host: %d\n" [ret] b in
            let b := called drm_panel_remove b in
            (ret, b)
          else (0, b)
      end
  end.

(** [remove] returns nothing; the function gives the state it leaves. *)
Definition samsung_ea8074_remove (b : binding) : binding :=
  let ret := detach_ret env in
  let b := called mipi_dsi_detach b in
  let b :=
    if ret <? 0
    then logged "Failed to detach from DSI host: %d\n" [ret] b
    else b in
  called drm_panel_remove b.

End Bind.

(** A device no driver is bound to. *)
Definition unbound : binding := {|
  dsi_lanes := 0; dsi_format := 0; dsi_mode_flags := 0;
  ctx_prepared := false; prepare_prev_first := false; panel_added := false;
  calls := []; klog := []
|}.

(** A kernel in which every call of [probe] and [remove] succeeds. *)
Definition kernel_ok : bind_env := {|
  kzalloc_ok := true; gpiod_get := ptr_ok; backlight_register := ptr_ok;
  attach_ret := 0; detach_ret := 0
|}.

(** The calls of a [probe] in which every step succeeds. *)
Definition probe_calls : list bind_call :=
  [devm_kzalloc; devm_gpiod_get_reset_out_high; mipi_dsi_set_drvdata;
   drm_panel_init;
   devm_backlight_device_register
     {| bl_raw := true; bl_brightness := 1023; bl_max_brightness := 1023 |};
   drm_panel_add; mipi_dsi_attach].

(** How often a call occurs in a list of calls. *)
Definition is_panel_add (c : bind_call) : bool :=
  match c with drm_panel_add => true | _ => false end.
Definition is_panel_remove (c : bind_call) : bool :=
  match c with drm_panel_remove => true | _ => false end.
Definition times (p : bind_call -> bool) (l : list bind_call) : nat :=
  List.length (filter p l).

(** ** clk-regmap.c *)

(** [unsigned int]: 32 bits; its [~]. *)
Definition uint (z : Z) : Z := z mod 2 ^ 32.
Definition uint_not (z : Z) : Z := Z.lxor (uint z) (2 ^ 32 - 1).

(** [struct clk_regmap]: [hw_addr] is the address of the embedded
    [struct clk_hw], by which clocks are told apart (0 is NULL); [regmap]
    is the handle of the register map, [None] for NULL. *)
Record clk_regmap := {
  hw_addr : Z;
  regmap : option Z;
  enable_reg : Z;
  enable_mask : Z;
  enable_is_inverted : bool
}.

(** The registers behind a regmap: the value of each register. *)
Definition registers : Type := Z -> Z.

(** Modelled from the spec: [regmap_read] and [regmap_update_bits] of the
    regmap core, which is not among the sources; the spec has them as a
    single masked read or write of a hardware register.  [io] is the
    result of the bus access, 0 when it works.  A read gives the result
    and the value of the register; an update that works replaces the bits
    of [mask] by those of [val] and leaves the other bits, one that fails
    changes nothing. *)
Definition regmap_read (io : Z) (regs : registers) (reg : Z) : Z * Z :=
  (io, regs reg).

Definition regmap_update_bits (io : Z) (regs : registers)
  (reg mask val : Z) : Z * registers :=
  if io =? 0
  then (0, fun r => if r =? reg
                    then Z.lor (Z.land (regs reg) (uint_not mask))
                               (Z.land val mask)
                    else regs r)
  else (io, regs).

Definition c_bool (b : bool) : Z := if b then 1 else 0.

Definition clk_is_enabled_regmap (io : Z) (rclk : clk_regmap)
  (regs : registers) : Z :=
  let (ret, val) := regmap_read io regs (enable_reg rclk) in
  if negb (ret =? 0) then ret
  else if enable_is_inverted rclk
  then c_bool (Z.land val (enable_mask rclk) =? 0)
  else c_bool (negb (Z.land val (enable_mask rclk) =? 0)).

Definition clk_enable_regmap (io : Z) (rclk : clk_regmap)
  (regs : registers) : Z * registers :=
  let val := if enable_is_inverted rclk then 0 else enable_mask rclk in
  regmap_update_bits io regs (enable_reg rclk) (enable_mask rclk) val.

(** [clk_disable_regmap] returns nothing and drops the result of the
    update; the function gives the registers it leaves. *)
Definition clk_disable_regmap (io : Z) (rclk : clk_regmap)
  (regs : registers) : registers :=
  let val := if enable_is_inverted rclk then enable_mask rclk else 0 in
  snd (regmap_update_bits io regs (enable_reg rclk) (enable_mask rclk) val).

(** [clk_is_regmap_clk]: the walk over [clk_regmap_list] under
    [clk_regmap_lock], with the lock operations it performs. *)
Inductive lock_op :=
| spin_lock
| spin_unlock.

Fixpoint list_for_each_entry_match (l : list clk_regmap) (hw : Z) : bool :=
  match l with
  | [] => false
  | rclk :: rest =>
      if hw_addr rclk =? hw then true
      else list_for_each_entry_match rest hw
  end.

Definition clk_is_regmap_clk (clk_regmap_list : list clk_regmap) (hw : Z)
  : bool * list lock_op :=
  let is_regmap_clk := false in
  if negb (hw =? 0) then
    let locks := [spin_lock] in
    let is_regmap_clk :=
      if list_for_each_entry_match clk_regmap_list hw then true
      else is_regmap_clk in
    let locks := locks ++ [spin_unlock] in
    (is_regmap_clk, locks)
  else (is_regmap_clk, []).

(** A device: the regmap [dev_get_regmap(dev, NULL)] finds for it, if any,
    and its parent, if any, as the regmap found for the parent. *)
Record device := {
  dev_get_regmap : option Z;
  dev_parent : option (option Z)
}.

Definition with_regmap (m : option Z) (rclk : clk_regmap) : clk_regmap :=
  {| hw_addr := hw_addr rclk; regmap := m; enable_reg := enable_reg rclk;
     enable_mask := enable_mask rclk;
     enable_is_inverted := enable_is_inverted rclk |}.

Definition is_some {A} (o : option A) : bool :=
  match o with Some _ => true | None => false end.

(** [register_ret] is what [devm_clk_hw_register] returns. *)
Definition devm_clk_register_regmap (register_ret : Z) (dev : option device)
  (rclk : clk_regmap) : Z * clk_regmap :=
  let rclk :=
    match dev with
    | Some d =>
        if is_some (dev_get_regmap d)
        then with_regmap (dev_get_regmap d) rclk
        else match dev_parent d with
             | Some parent_regmap => with_regmap parent_regmap rclk
             | None => rclk
             end
    | None => rclk
    end in
  (register_ret, rclk).

(** Runtime PM: [enabled] is what [pm_runtime_enabled] answers, [get_ret]
    what [pm_runtime_get_sync] returns; the calls made are listed. *)
Inductive pm_call :=
| pm_runtime_get_sync
| pm_runtime_put_sync.

Definition clk_runtime_get_regmap (enabled : bool) (get_ret : Z)
  : Z * list pm_call :=
  if enabled then
    let ret := get_ret in
    if ret <? 0 then (ret, [pm_runtime_get_sync])
    else (0, [pm_runtime_get_sync])
  else (0, []).

Definition clk_runtime_put_regmap (enabled : bool) : list pm_call :=
  if enabled then [pm_runtime_put_sync] else [].

(** Inputs to run the rest of the code on: a kernel whose DSI host refuses
    the attach, a gate clock with one enable bit, a clock whose mask is
    empty and whose polarity is inverted, and registers that all hold 0. *)
Definition kernel_attach_fails : bind_env := {|
  kzalloc_ok := true; gpiod_get := ptr_ok; backlight_register := ptr_ok;
  attach_ret := - EIO; detach_ret := 0
|}.

Definition sample_clk : clk_regmap := {|
  hw_addr := 0x4000; regmap := Some 1; enable_reg := 0x1000;
  enable_mask := 1; enable_is_inverted := false
|}.

Definition maskless_clk : clk_regmap := {|
  hw_addr := 0x4100; regmap := Some 1; enable_reg := 0x1004;
  enable_mask := 0; enable_is_inverted := true
|}.

Definition zeroed : registers := fun _ => 0.

(** * Properties *)

(** ** Integers *)

Lemma u16_range z : 0 <= CInt.u16 z <= 65535.
Proof.
  unfold CInt.u16. pose proof (Z.mod_pos_bound z (2 ^ 16)). lia.
Qed.

Lemma u16_small z : 0 <= z <= 65535 -> CInt.u16 z = z.
Proof. intros. unfold CInt.u16. apply Z.mod_small. lia. Qed.

(** ** Worlds and traces *)

Lemma transfers_app a b : transfers (a ++ b) = transfers a ++ transfers b.
Proof.
  induction a as [|e a IH]; [reflexivity|].
  destruct e; simpl; now rewrite IH.
Qed.

Lemma emits_nil w : emits [] w = w.
Proof. destruct w. unfold emits. simpl. now rewrite app_nil_r. Qed.

Lemma emits_emits a b w : emits b (emits a w) = emits (a ++ b) w.
Proof. unfold emits. simpl. now rewrite app_assoc. Qed.

Lemma xfers_emits es w :
  xfers (emits es w) = (xfers w + List.length (transfers es))%nat.
Proof. unfold xfers. simpl. now rewrite transfers_app, length_app. Qed.

Lemma xfers_emit_xfer c w : xfers (emit (Xfer c) w) = S (xfers w).
Proof.
  unfold xfers. cbn [emit trace]. rewrite transfers_app, length_app.
  cbn [transfers List.length]. lia.
Qed.

Lemma transfers_step_events steps : transfers (step_events steps) = map cmd steps.
Proof.
  induction steps as [|s steps IH]; [reflexivity|]. simpl. now rewrite IH.
Qed.

(** ** The sequencer *)

Section SequencerFacts.

Context {hdr : headers}.
Variable bus : nat -> reply.

(** [samsung_ea8074_on] is the sequencer run on the table [on_steps]. *)
Lemma on_is_sequence w :
  samsung_ea8074_on bus w = run (sequence bus on_steps) w.
Proof. reflexivity. Qed.

Lemma sequence_cons_ok s rest w :
  0 <= status (bus (xfers w)) ->
  run (sequence bus (s :: rest)) w =
  run (sequence bus rest) (emits [Xfer (cmd s); Sleep (settle s)] w).
Proof.
  intros Hok.
  replace (emits [Xfer (cmd s); Sleep (settle s)] w)
    with (emit (Sleep (settle s)) (emit (Xfer (cmd s)) w))
    by (unfold emit, emits; simpl; now rewrite <- app_assoc).
  unfold run. simpl. unfold bind, mipi_dsi_dcs, transfer, pure, when. simpl.
  destruct (Z.ltb_spec (status (bus (xfers w))) 0); [lia|]. reflexivity.
Qed.

Lemma sequence_cons_fail s rest w :
  status (bus (xfers w)) < 0 ->
  run (sequence bus (s :: rest)) w =
  (status (bus (xfers w)),
   printk (fst (report s (status (bus (xfers w)))))
          (snd (report s (status (bus (xfers w)))))
          (emits [Xfer (cmd s)] w)).
Proof.
  intros Hko.
  unfold run. simpl. unfold bind, mipi_dsi_dcs, transfer, pure, when. simpl.
  destruct (Z.ltb_spec (status (bus (xfers w))) 0); [|lia]. reflexivity.
Qed.

Lemma healthy_step w e d n :
  healthy bus w (S n) -> healthy bus (emits [Xfer e; Sleep d] w) n.
Proof.
  intros H i Hi. rewrite xfers_emits. simpl.
  replace (xfers w + 1 + i)%nat with (xfers w + S i)%nat by lia.
  apply H. lia.
Qed.

(** With a host that answers every step, the sequencer returns 0 and has
    sent every step, each followed by its delay. *)
Lemma sequence_healthy steps : forall w,
  healthy bus w (List.length steps) ->
  run (sequence bus steps) w = (0, emits (step_events steps) w).
Proof.
  induction steps as [|s rest IH]; intros w H.
  - simpl. now rewrite emits_nil.
  - rewrite sequence_cons_ok.
    + rewrite IH by (apply healthy_step, H).
      now rewrite emits_emits.
    + specialize (H 0%nat). rewrite Nat.add_0_r in H. apply H. simpl. lia.
Qed.

(** With a host that fails step [k] (counted from 0), the sequencer
    returns that error right after sending step [k]: the steps before it
    were sent with their delays, nothing is sent after it, and the
    step's diagnostic is printed. *)
Lemma sequence_fails steps : forall k w s,
  nth_error steps k = Some s ->
  fails_at bus w k ->
  let e := status (bus (xfers w + k)) in
  run (sequence bus steps) w =
  (e, printk (fst (report s e)) (snd (report s e))
        (emits (step_events (firstn k steps) ++ [Xfer (cmd s)]) w)).
Proof.
  induction steps as [|s0 rest IH]; intros k w s Hnth [Hok Hko].
  - destruct k; discriminate.
  - destruct k as [|k]; simpl in Hnth.
    + injection Hnth as ->. rewrite Nat.add_0_r in *.
      now rewrite sequence_cons_fail.
    + rewrite sequence_cons_ok.
      2:{ specialize (Hok 0%nat). rewrite Nat.add_0_r in Hok.
          apply Hok. lia. }
      assert (Hx : (xfers (emits [Xfer (cmd s0); Sleep (settle s0)] w) + k
                    = xfers w + S k)%nat)
        by (rewrite xfers_emits; simpl; lia).
      cbv zeta. rewrite (IH k _ s Hnth).
      * rewrite Hx, emits_emits. reflexivity.
      * split; [now apply healthy_step|]. now rewrite Hx.
Qed.

End SequencerFacts.

(** ** Outcomes of the power-on sequence *)

Section PowerOn.

Context {hdr : headers}.
Variable bus : nat -> reply.

(** Either the host answers the next [n] transfers, or one of them is the
    first to fail. *)
Lemma healthy_or_fails w n :
  healthy bus w n \/ exists k, (k < n)%nat /\ fails_at bus w k.
Proof.
  induction n as [|n [IH | (k & Hk & Hf)]].
  - left. intros i Hi. lia.
  - destruct (Z_lt_le_dec (status (bus (xfers w + n))) 0) as [Hlt | Hge].
    + right. exists n. split; [lia|]. now split.
    + left. intros i Hi.
      destruct (Nat.eq_dec i n) as [-> | Hne]; [exact Hge|].
      apply IH. lia.
  - right. exists k. split; [lia | exact Hf].
Qed.

Lemma on_healthy w :
  healthy bus w (List.length on_steps) ->
  samsung_ea8074_on bus w = (0, emits (step_events on_steps) w).
Proof. intros H. rewrite on_is_sequence. now apply sequence_healthy. Qed.

Lemma on_fails w k s :
  nth_error on_steps k = Some s ->
  fails_at bus w k ->
  let e := status (bus (xfers w + k)) in
  samsung_ea8074_on bus w =
  (e, printk (fst (report s e)) (snd (report s e))
        (emits (step_events (firstn k on_steps) ++ [Xfer (cmd s)]) w)).
Proof. intros Hn Hf. rewrite on_is_sequence. now apply sequence_fails. Qed.

Lemma firstn_snoc {A} (l : list A) k x :
  nth_error l k = Some x -> firstn (S k) l = firstn k l ++ [x].
Proof.
  revert k. induction l as [|a l IH]; intros [|k] H; try discriminate.
  - injection H as ->. reflexivity.
  - simpl in *. now rewrite <- IH.
Qed.

(** Every run of the power-on sequence sends a prefix of [on_cmds], and
    the whole of it exactly when it returns 0. *)
Lemma on_sends_prefix w :
  exists n,
    transfers (trace (snd (samsung_ea8074_on bus w))) =
      transfers (trace w) ++ firstn n on_cmds /\
    (fst (samsung_ea8074_on bus w) = 0 -> firstn n on_cmds = on_cmds).
Proof.
  destruct (healthy_or_fails w (List.length on_steps))
    as [H | (k & Hk & Hf)].
  - exists (List.length on_cmds). rewrite (on_healthy w H).
    cbn [fst snd emits trace]. split; [|intros _; apply firstn_all].
    now rewrite transfers_app, transfers_step_events, firstn_all.
  - destruct (nth_error on_steps k) as [s|] eqn:Hs.
    2:{ apply nth_error_None in Hs. lia. }
    exists (S k). rewrite (on_fails w k s Hs Hf).
    cbn [fst snd printk emits trace]. split.
    + rewrite !transfers_app, transfers_step_events.
      cbn [transfers]. unfold on_cmds.
      rewrite (firstn_snoc (map cmd on_steps) k (cmd s))
        by (now rewrite nth_error_map, Hs).
      now rewrite firstn_map.
    + destruct Hf as [_ Hlt]. lia.
Qed.

(** A host cannot both answer the whole sequence and fail a step of it,
    and the step it fails first is unique. *)
Lemma healthy_not_fails w n k :
  healthy bus w n -> (k < n)%nat -> fails_at bus w k -> False.
Proof. intros H Hk [_ Hko]. specialize (H k Hk). lia. Qed.

Lemma fails_at_unique w k k' :
  fails_at bus w k -> fails_at bus w k' -> k = k'.
Proof.
  intros [Hok Hko] [Hok' Hko'].
  destruct (Nat.lt_trichotomy k k') as [Hlt | [Heq | Hgt]]; [|exact Heq|].
  - specialize (Hok' k Hlt). lia.
  - specialize (Hok k' Hgt). lia.
Qed.

(** What a run of the power-on sequence has sent and returned, by what the
    host does: everything and 0 on a host that answers the sequence, the
    steps up to the failing one and its error on a host that fails a step;
    always a prefix of [on_cmds]. *)
Lemma on_sent w :
  exists sent,
    transfers (trace (snd (samsung_ea8074_on bus w))) =
      transfers (trace w) ++ sent /\
    (exists n, sent = firstn n on_cmds) /\
    (fst (samsung_ea8074_on bus w) = 0 -> sent = on_cmds) /\
    (healthy bus w (List.length on_steps) ->
     fst (samsung_ea8074_on bus w) = 0 /\ sent = on_cmds) /\
    (forall k, (k < List.length on_steps)%nat -> fails_at bus w k ->
     fst (samsung_ea8074_on bus w) = status (bus (xfers w + k)) /\
     sent = firstn (S k) on_cmds).
Proof.
  destruct (healthy_or_fails w (List.length on_steps))
    as [H | (k & Hk & Hf)].
  - exists on_cmds. rewrite (on_healthy w H). cbn [fst snd emits trace].
    split; [now rewrite transfers_app, transfers_step_events|].
    split; [exists (List.length on_cmds); now rewrite firstn_all|].
    split; [reflexivity|]. split; [now split|].
    intros k' Hk' Hf'. destruct (healthy_not_fails w _ k' H Hk' Hf').
  - destruct (nth_error on_steps k) as [s|] eqn:Hs.
    2:{ apply nth_error_None in Hs. lia. }
    exists (firstn (S k) on_cmds). rewrite (on_fails w k s Hs Hf).
    cbn [fst snd printk emits trace].
    split.
    { rewrite !transfers_app, transfers_step_events.
      cbn [transfers]. unfold on_cmds.
      rewrite (firstn_snoc (map cmd on_steps) k (cmd s))
        by (now rewrite nth_error_map, Hs).
      now rewrite firstn_map. }
    split; [now exists (S k)|].
    split; [destruct Hf as [_ Hlt]; lia|].
    split; [intros H; destruct (healthy_not_fails w _ k H Hk Hf)|].
    intros k' Hk' Hf'. rewrite (fails_at_unique w k' k Hf' Hf). now split.
Qed.

End PowerOn.

(** ** Order and content of the power-on commands *)

Lemma precedes_firstn {A} (a b : A) l n :
  precedes a b l -> precedes a b (firstn n l).
Proof.
  intros H j Hj. rewrite nth_error_firstn in Hj.
  destruct (Nat.ltb_spec j n) as [Hlt|]; [|discriminate].
  destruct (H j Hj) as (i & Hi & Ha). exists i. split; [exact Hi|].
  rewrite nth_error_firstn.
  destruct (Nat.ltb_spec i n); [exact Ha | lia].
Qed.

Lemma In_firstn {A} (x : A) l n : In x (firstn n l) -> In x l.
Proof.
  intros H. rewrite <- (firstn_skipn n l). apply in_or_app. now left.
Qed.

Ltac earlier i := exists i; split; [lia | reflexivity].

(** Walks the positions of [on_cmds]: a position that does not hold the
    later command is dismissed, one that does gets position [i] as the
    earlier one. *)
Ltac scan_on_cmds j H i :=
  unfold on_cmds, on_steps in H; cbn [map cmd checked seq_write] in H;
  do 27 (destruct j as [|j];
         [first [discriminate H | earlier i] | cbn [nth_error] in H]);
  destruct j; discriminate.

Section CommandOrder.

Context {hdr : headers}.
Variable bus : nat -> reply.

Lemma column_before_page : precedes column_address page_address on_cmds.
Proof. intros j H. scan_on_cmds j H 1%nat. Qed.

Lemma page_before_memory_start :
  precedes page_address memory_start on_cmds.
Proof. intros j H. scan_on_cmds j H 2%nat. Qed.

Lemma memory_start_before_display_on :
  precedes memory_start set_display_on on_cmds.
Proof. intros j H. scan_on_cmds j H 18%nat. Qed.

(** C6.  In every run of the power-on sequence, whatever the host does,
    among the commands the run sends the column address comes before the
    page address, the page address before the memory-write start, and the
    memory-write start before every display-on, the final one included.
    On a host that answers the sequence the run returns 0 and has sent
    the four of them in this order, the display-on as its last command;
    on a host that fails step [k] it has sent the commands of steps 0 to
    [k] of that same order and nothing else; and whenever the run returns
    0 it has sent them all. *)
Theorem on_command_order w :
  exists sent,
    transfers (trace (snd (samsung_ea8074_on bus w))) =
      transfers (trace w) ++ sent /\
    precedes column_address page_address sent /\
    precedes page_address memory_start sent /\
    precedes memory_start set_display_on sent /\
    (fst (samsung_ea8074_on bus w) = 0 ->
     exists l1 l2 l3 l4,
       sent = l1 ++ column_address :: l2 ++ page_address :: l3 ++
              memory_start :: l4 ++ [set_display_on]) /\
    (healthy bus w (List.length on_steps) ->
     fst (samsung_ea8074_on bus w) = 0 /\
     exists l1 l2 l3 l4,
       sent = l1 ++ column_address :: l2 ++ page_address :: l3 ++
              memory_start :: l4 ++ [set_display_on]) /\
    (forall k, (k < List.length on_steps)%nat -> fails_at bus w k ->
     fst (samsung_ea8074_on bus w) = status (bus (xfers w + k)) /\
     sent = firstn (S k) on_cmds).
Proof.
  assert (Hsplit : exists l1 l2 l3 l4,
            on_cmds = l1 ++ column_address :: l2 ++ page_address :: l3 ++
                      memory_start :: l4 ++ [set_display_on]).
  { exists (firstn 1 on_cmds), [], (firstn 15 (skipn 3 on_cmds)),
           (firstn 7 (skipn 19 on_cmds)). reflexivity. }
  destruct (on_sent bus w) as (sent & Htr & (n & Hn) & Hzero & Hh & Hf).
  exists sent. split; [exact Htr|].
  split; [rewrite Hn; apply precedes_firstn, column_before_page|].
  split; [rewrite Hn; apply precedes_firstn, page_before_memory_start|].
  split; [rewrite Hn; apply precedes_firstn, memory_start_before_display_on|].
  split; [intros H0; now rewrite (Hzero H0)|].
  split; [|exact Hf].
  intros H. destruct (Hh H) as [H0 ->]. now split.
Qed.

(** C7.  Every column-address command a run of the power-on sequence
    sends covers 0..0x0437 and every page-address command 0..0x086f;
    these upper bounds are the mode's [hdisplay - 1] and [vdisplay - 1],
    that is 1079 and 2159.  On a host that answers the sequence the run
    returns 0 and has sent both commands; on a host that fails step [k]
    (from 0) it has sent the column address when [k] is at least 1 and
    the page address when [k] is at least 2; and whenever the run returns
    0 it has sent both. *)
Theorem on_address_window w :
  exists sent,
    transfers (trace (snd (samsung_ea8074_on bus w))) =
      transfers (trace w) ++ sent /\
    (forall s e, In (set_column_address s e) sent ->
       s = 0 /\ e = 0x0437 /\ e = hdisplay samsung_ea8074_mode - 1) /\
    (forall s e, In (set_page_address s e) sent ->
       s = 0 /\ e = 0x086f /\ e = vdisplay samsung_ea8074_mode - 1) /\
    hdisplay samsung_ea8074_mode - 1 = 1079 /\
    vdisplay samsung_ea8074_mode - 1 = 2159 /\
    (fst (samsung_ea8074_on bus w) = 0 ->
     In (set_column_address 0 (hdisplay samsung_ea8074_mode - 1)) sent /\
     In (set_page_address 0 (vdisplay samsung_ea8074_mode - 1)) sent) /\
    (healthy bus w (List.length on_steps) ->
     fst (samsung_ea8074_on bus w) = 0 /\
     In (set_column_address 0 (hdisplay samsung_ea8074_mode - 1)) sent /\
     In (set_page_address 0 (vdisplay samsung_ea8074_mode - 1)) sent) /\
    (forall k, (k < List.length on_steps)%nat -> fails_at bus w k ->
     ((1 <= k)%nat ->
      In (set_column_address 0 (hdisplay samsung_ea8074_mode - 1)) sent) /\
     ((2 <= k)%nat ->
      In (set_page_address 0 (vdisplay samsung_ea8074_mode - 1)) sent)).
Proof.
  assert (Hboth :
    In (set_column_address 0 (hdisplay samsung_ea8074_mode - 1)) on_cmds /\
    In (set_page_address 0 (vdisplay samsung_ea8074_mode - 1)) on_cmds).
  { split; [right; left | right; right; left]; reflexivity. }
  assert (Hat : forall k i c, nth_error on_cmds i = Some c -> (i <= k)%nat ->
                  In c (firstn (S k) on_cmds)).
  { intros k i c Hi Hle. apply (nth_error_In _ i).
    rewrite nth_error_firstn.
    destruct (Nat.ltb_spec i (S k)); [exact Hi | lia]. }
  destruct (on_sent bus w) as (sent & Htr & (n & Hn) & Hzero & Hh & Hf).
  exists sent. split; [exact Htr|].
  split; [|split; [|split; [reflexivity | split; [reflexivity|]]]].
  - intros s e H. rewrite Hn in H. apply In_firstn in H.
    unfold on_cmds, on_steps in H. cbn [map cmd checked seq_write] in H.
    repeat (destruct H as [H | H]; [try discriminate H|]);
      [injection H as <- <-; repeat split | destruct H].
  - intros s e H. rewrite Hn in H. apply In_firstn in H.
    unfold on_cmds, on_steps in H. cbn [map cmd checked seq_write] in H.
    repeat (destruct H as [H | H]; [try discriminate H|]);
      [injection H as <- <-; repeat split | destruct H].
  - split; [intros H0; rewrite (Hzero H0); exact Hboth|].
    split.
    + intros H. destruct (Hh H) as [H0 ->]. split; [exact H0 | exact Hboth].
    + intros k Hk Hfk. destruct (Hf k Hk Hfk) as [_ ->]. split; intros Hle.
      * now apply (Hat k 1%nat).
      * now apply (Hat k 2%nat).
Qed.

End CommandOrder.

Section DisplayOn.

Context {hdr : headers}.
Variable bus : nat -> reply.

(** C10.  A run of the power-on sequence in which no transfer fails
    returns 0 and sends display-on exactly twice: once right after the
    memory-write start (only that command's short delay in between), and
    once as the last command, followed only by the 120 ms sleep. *)
Theorem on_display_on_twice w :
  healthy bus w (List.length on_steps) ->
  fst (samsung_ea8074_on bus w) = 0 /\
  exists es,
    trace (snd (samsung_ea8074_on bus w)) = trace w ++ es /\
    count_display_on es = 2%nat /\
    exists pre mid,
      es = pre ++
           [Xfer memory_start; Sleep short_settle; Xfer set_display_on] ++
           mid ++
           [Xfer set_display_on; Sleep (Msleep 120)] /\
      ~ In (Xfer set_display_on) pre /\
      ~ In (Xfer set_display_on) mid.
Proof.
  intros H. rewrite (on_healthy bus w H). cbn [fst snd emits trace].
  split; [reflexivity|].
  exists (step_events on_steps).
  split; [reflexivity|]. split; [reflexivity|].
  exists (firstn 36 (step_events on_steps)),
         (firstn 13 (skipn 39 (step_events on_steps))).
  split; [reflexivity|].
  split; cbn; intuition discriminate.
Qed.

End DisplayOn.

(** ** prepare *)

Section Prepare.

Context {hdr : headers}.
Variable bus : nat -> reply.

Lemma reset_runs w : samsung_ea8074_reset w = (Next tt, after_reset w).
Proof.
  cbv [samsung_ea8074_reset bind gpiod_set_value_cansleep usleep_range
       modify after_reset reset_pulse emits emit with_reset_gpio].
  cbn [prepared mode_flags reset_gpio trace dmesg].
  repeat rewrite <- app_assoc. reflexivity.
Qed.

Lemma xfers_after_reset w : xfers (after_reset w) = xfers w.
Proof.
  unfold after_reset. rewrite xfers_emits. cbn. unfold xfers. cbn. lia.
Qed.

(** [prepare] on a prepared panel returns 0 and changes nothing. *)
Lemma prepare_when_prepared w :
  prepared w = true -> samsung_ea8074_prepare bus w = (0, w).
Proof.
  intros Hp. cbv [samsung_ea8074_prepare run bind get when c_return].
  now rewrite Hp.
Qed.

(** [prepare] on an unprepared panel: reset pulse, power-on sequence,
    then the rollback or the state change. *)
Lemma prepare_when_unprepared w :
  prepared w = false ->
  samsung_ea8074_prepare bus w =
  (let (ret, w2) := samsung_ea8074_on bus (after_reset w) in
   if ret <? 0
   then (ret, emit (Gpio 1) (with_reset_gpio 1
                 (printk "Failed to initialize panel: %d\n" [ret] w2)))
   else (0, with_prepared true w2)).
Proof.
  intros Hp.
  cbv [samsung_ea8074_prepare run bind get when call c_return].
  rewrite Hp, reset_runs.
  destruct (samsung_ea8074_on bus (after_reset w)) as [ret w2].
  destruct (ret <? 0); reflexivity.
Qed.

(** C2.  [prepare] on an unprepared panel, the host failing step [k]
    of the power-on sequence (steps counted from 0, so the claim's step
    [k] is [k - 1] here): [prepare] returns the error of that transfer;
    the reset line is left asserted, its assertion being the last thing
    that happens; [prepared] is still false; the commands sent are those
    of steps 0 to [k], once each, and nothing after the failing one. *)
Theorem prepare_failure_rolls_back w k s :
  prepared w = false ->
  nth_error on_steps k = Some s ->
  fails_at bus w k ->
  let e := status (bus (xfers w + k)) in
  let r := samsung_ea8074_prepare bus w in
  fst r = e /\ e < 0 /\
  reset_gpio (snd r) = 1 /\
  prepared (snd r) = false /\
  trace (snd r) =
    trace w ++ reset_pulse ++ step_events (firstn k on_steps) ++
    [Xfer (cmd s); Gpio 1] /\
  transfers (trace (snd r)) = transfers (trace w) ++ firstn (S k) on_cmds.
Proof.
  intros Hp Hs Hf e r.
  assert (Hf' : fails_at bus (after_reset w) k).
  { destruct Hf as [Hok Hko]. split.
    - intros i Hi. rewrite xfers_after_reset. now apply Hok.
    - now rewrite xfers_after_reset. }
  assert (He : e < 0) by apply Hf.
  assert (Htr : trace (snd r) =
    trace w ++ reset_pulse ++ step_events (firstn k on_steps) ++
    [Xfer (cmd s); Gpio 1] /\ fst r = e /\ reset_gpio (snd r) = 1 /\
    prepared (snd r) = false).
  { subst r. rewrite (prepare_when_unprepared w Hp).
    rewrite (on_fails bus (after_reset w) k s Hs Hf').
    rewrite xfers_after_reset. fold e.
    destruct (Z.ltb_spec e 0) as [_|]; [|lia].
    cbn [fst snd emit emits printk with_reset_gpio after_reset
         prepared mode_flags reset_gpio trace dmesg].
    repeat split; [|exact Hp].
    rewrite <- !app_assoc. reflexivity. }
  destruct Htr as (Htr & Hr & Hg & Hpr).
  repeat split; try assumption.
  rewrite Htr, !transfers_app, transfers_step_events.
  cbn [transfers reset_pulse app]. unfold on_cmds.
  rewrite (firstn_snoc (map cmd on_steps) k (cmd s))
    by (now rewrite nth_error_map, Hs).
  now rewrite firstn_map.
Qed.

End Prepare.

Section PrepareTwice.

Context {hdr : headers}.
Variable bus : nat -> reply.

(** [prepare] on an unprepared panel with a host that answers the whole
    power-on sequence: the reset pulse, then every step, then
    [prepared]. *)
Lemma prepare_succeeds w :
  prepared w = false ->
  healthy bus w (List.length on_steps) ->
  samsung_ea8074_prepare bus w =
  (0, with_prepared true (emits (step_events on_steps) (after_reset w))).
Proof.
  intros Hp H. rewrite (prepare_when_unprepared bus w Hp).
  rewrite on_healthy; [reflexivity|].
  intros i Hi. rewrite xfers_after_reset. now apply H.
Qed.

(** C5.  Two calls of [prepare] in a row on an unprepared panel whose
    host answers the power-on sequence: the first returns 0 and leaves
    the panel prepared; the second returns 0 and leaves the world as it
    found it, so it sends nothing and does not drive the reset line; the
    two calls together have sent the power-on commands once. *)
Theorem prepare_twice_sends_once w :
  prepared w = false ->
  healthy bus w (List.length on_steps) ->
  let r1 := samsung_ea8074_prepare bus w in
  let r2 := samsung_ea8074_prepare bus (snd r1) in
  fst r1 = 0 /\ prepared (snd r1) = true /\
  fst r2 = 0 /\ snd r2 = snd r1 /\
  trace (snd r2) = trace w ++ reset_pulse ++ step_events on_steps /\
  transfers (trace (snd r2)) = transfers (trace w) ++ on_cmds.
Proof.
  intros Hp H r1 r2.
  assert (H1 : r1 = (0, with_prepared true
                 (emits (step_events on_steps) (after_reset w))))
    by now apply prepare_succeeds.
  assert (H2 : r2 = (0, snd r1)).
  { subst r2. apply prepare_when_prepared. now rewrite H1. }
  rewrite H2, H1. cbn [fst snd with_prepared emits after_reset
    with_reset_gpio prepared trace].
  repeat split.
  - now rewrite <- app_assoc.
  - rewrite !transfers_app, transfers_step_events.
    cbn [transfers reset_pulse]. now rewrite app_nil_r.
Qed.

End PrepareTwice.

(** ** unprepare *)

Section Unprepare.

Context {hdr : headers}.
Variable bus : nat -> reply.

(** The three ways through [samsung_ea8074_off]. *)
Lemma off_cases w :
  let e1 := status (bus (xfers w)) in
  let e2 := status (bus (xfers (display_off_sent w))) in
  (e1 < 0 /\
   samsung_ea8074_off bus w =
     (e1, printk "Failed to set display off: %d\n" [e1]
            (display_off_sent w))) \/
  (0 <= e1 /\ e2 < 0 /\
   samsung_ea8074_off bus w =
     (e2, printk "Failed to enter sleep mode: %d\n" [e2]
            (emit (Xfer enter_sleep_mode) (display_off_sent w)))) \/
  (0 <= e1 /\ 0 <= e2 /\
   samsung_ea8074_off bus w =
     (0, emit (Sleep (Msleep 120))
           (emit (Xfer enter_sleep_mode) (display_off_sent w)))).
Proof.
  cbv zeta.
  cbv [samsung_ea8074_off run bind when c_return pure dev_err msleep modify
       mipi_dsi_dcs_set_display_off mipi_dsi_dcs_enter_sleep_mode
       mipi_dsi_dcs transfer].
  fold (display_off_sent w).
  destruct (Z.ltb_spec (status (bus (xfers w))) 0); [left; now split|].
  destruct (Z.ltb_spec (status (bus (xfers (display_off_sent w)))) 0);
    [right; left | right; right]; now repeat split.
Qed.

Lemma unprepare_when_prepared w :
  prepared w = true ->
  samsung_ea8074_unprepare bus w =
  (let (ret, w2) := samsung_ea8074_off bus w in
   (0, with_prepared false (emit (Gpio 1) (with_reset_gpio 1
         (if ret <? 0
          then printk "Failed to un-initialize panel: %d\n" [ret] w2
          else w2))))).
Proof.
  intros Hp.
  cbv [samsung_ea8074_unprepare run bind get when when' call c_return pure
       dev_err gpiod_set_value_cansleep modify].
  rewrite Hp. cbn [negb].
  destruct (samsung_ea8074_off bus w) as [ret w2].
  destruct (ret <? 0); reflexivity.
Qed.

(** C3, as the code has it.  [unprepare] returns 0 in every case, so a
    failure of the power-off sequence reaches the kernel log and not the
    caller.  On an unprepared panel nothing happens.  On a prepared panel
    the reset line is asserted and [prepared] becomes false, and the log
    tells what the power-off sequence returned: when display-off fails
    with [e1], the sequence returns [e1] and the log gains
    "Failed to set display off" and then "Failed to un-initialize panel",
    both with [e1]; when display-off is accepted and enter-sleep fails
    with [e2], it returns [e2] and the log gains
    "Failed to enter sleep mode" and then "Failed to un-initialize panel",
    both with [e2]; when both are accepted it returns 0 and nothing is
    logged. *)
Theorem unprepare_logs_failure w :
  let e1 := status (bus (xfers w)) in
  let e2 := status (bus (S (xfers w))) in
  let r := samsung_ea8074_unprepare bus w in
  fst r = 0 /\
  (prepared w = false -> snd r = w) /\
  (prepared w = true ->
   prepared (snd r) = false /\
   reset_gpio (snd r) = 1 /\
   (e1 < 0 ->
    fst (samsung_ea8074_off bus w) = e1 /\
    dmesg (snd r) =
      dmesg w ++ [("Failed to set display off: %d\n"%string, [e1]);
                  ("Failed to un-initialize panel: %d\n"%string, [e1])]) /\
   (0 <= e1 -> e2 < 0 ->
    fst (samsung_ea8074_off bus w) = e2 /\
    dmesg (snd r) =
      dmesg w ++ [("Failed to enter sleep mode: %d\n"%string, [e2]);
                  ("Failed to un-initialize panel: %d\n"%string, [e2])]) /\
   (0 <= e1 -> 0 <= e2 ->
    fst (samsung_ea8074_off bus w) = 0 /\
    dmesg (snd r) = dmesg w)).
Proof.
  cbv zeta. destruct (prepared w) eqn:Hp.
  - rewrite (unprepare_when_prepared w Hp).
    pose proof (off_cases w) as Hoff. cbv zeta in Hoff.
    assert (Hx : xfers (display_off_sent w) = S (xfers w))
      by apply xfers_emit_xfer.
    rewrite !Hx in Hoff.
    destruct Hoff as [(H1 & Ho) | [(H1 & H2 & Ho) | (H1 & H2 & Ho)]];
      rewrite Ho; cbv beta iota; cbn [fst snd].
    + destruct (Z.ltb_spec (status (bus (xfers w))) 0); [|lia].
      split; [reflexivity|]. split; [discriminate|]. intros _.
      cbn [with_prepared emit with_reset_gpio printk display_off_sent
           prepared reset_gpio dmesg].
      repeat split; try lia. now rewrite <- app_assoc.
    + destruct (Z.ltb_spec (status (bus (S (xfers w)))) 0); [|lia].
      split; [reflexivity|]. split; [discriminate|]. intros _.
      cbn [with_prepared emit with_reset_gpio printk display_off_sent
           prepared reset_gpio dmesg].
      repeat split; try lia. now rewrite <- app_assoc.
    + change (0 <? 0) with false.
      split; [reflexivity|]. split; [discriminate|]. intros _.
      cbn [with_prepared emit with_reset_gpio printk display_off_sent
           prepared reset_gpio dmesg].
      repeat split; lia.
  - cbv [samsung_ea8074_unprepare run bind get when c_return].
    rewrite Hp. cbn [negb fst snd].
    split; [reflexivity|]. split; [reflexivity | discriminate].
Qed.

(** C4.  [unprepare] on a prepared panel whose host fails the first
    power-off step, display-off: nothing more is sent, the reset line is
    asserted, and [prepared] is false when [unprepare] returns. *)
Theorem unprepare_best_effort w :
  prepared w = true ->
  status (bus (xfers w)) < 0 ->
  let r := samsung_ea8074_unprepare bus w in
  reset_gpio (snd r) = 1 /\
  prepared (snd r) = false /\
  trace (snd r) = trace w ++ [Xfer set_display_off; Gpio 1].
Proof.
  intros Hp Hneg r. subst r.
  rewrite (unprepare_when_prepared w Hp).
  destruct (off_cases w) as [(H1 & Ho) | [(H1 & _) | (H1 & _)]];
    [|lia|lia].
  rewrite Ho.
  destruct (Z.ltb_spec (status (bus (xfers w))) 0); [|lia].
  repeat split. cbn. now rewrite <- app_assoc.
Qed.

End Unprepare.

(** ** The backlight operations *)

Lemma land_lor_same f m : Z.land (Z.lor f m) m = m.
Proof.
  apply Z.bits_inj'. intros n _. rewrite Z.land_spec, Z.lor_spec.
  destruct (Z.testbit f n), (Z.testbit m n); reflexivity.
Qed.

Lemma land_cleared f m :
  0 <= m < 2 ^ 64 -> Z.land (Z.land f (CInt.ulong_not m)) m = 0.
Proof.
  intros Hm. unfold CInt.ulong_not, CInt.ulong.
  rewrite (Z.mod_small m) by lia.
  apply Z.bits_inj'. intros n Hn.
  rewrite !Z.land_spec, Z.lxor_spec, Z.bits_0.
  destruct (Z.testbit m n) eqn:Hb; [|now rewrite andb_false_r].
  assert (Hlt : n < 64).
  { destruct (Z_lt_le_dec n 64) as [|Hge]; [assumption|].
    rewrite <- (Z.mod_small m (2 ^ 64)) in Hb by lia.
    rewrite Z.mod_pow2_bits_high in Hb by lia. discriminate. }
  change (2 ^ 64 - 1) with (Z.ones 64).
  rewrite Z.ones_spec_low by lia. cbn. now rewrite andb_false_r.
Qed.

Section Backlight.

Context {hdr : headers}.
Variable bus : nat -> reply.

(** The two ways through [samsung_ea8074_bl_update_status]. *)
Lemma bl_update_status_cases requested w :
  let e := status (bus (xfers w)) in
  let cleared :=
    Z.land (mode_flags w) (CInt.ulong_not MIPI_DSI_MODE_LPM) in
  let sent :=
    emit (Xfer (set_display_brightness_large (CInt.u16 requested)))
         (with_mode_flags cleared w) in
  samsung_ea8074_bl_update_status bus requested w =
  if e <? 0 then (e, sent)
  else (0, with_mode_flags (Z.lor cleared MIPI_DSI_MODE_LPM) sent).
Proof.
  cbv zeta.
  cbv [samsung_ea8074_bl_update_status run bind when c_return pure modify
       mipi_dsi_dcs_set_display_brightness_large mipi_dsi_dcs transfer].
  change (xfers (with_mode_flags _ w)) with (xfers w).
  destruct (status (bus (xfers w)) <? 0); reflexivity.
Qed.

(** The two ways through [samsung_ea8074_bl_get_brightness]. *)
Lemma bl_get_brightness_cases w :
  let e := status (bus (xfers w)) in
  let cleared :=
    Z.land (mode_flags w) (CInt.ulong_not MIPI_DSI_MODE_LPM) in
  let sent :=
    emit (Xfer get_display_brightness_large) (with_mode_flags cleared w) in
  samsung_ea8074_bl_get_brightness bus w =
  if e <? 0 then (e, sent)
  else (CInt.u16 (payload (bus (xfers w))),
        with_mode_flags (Z.lor cleared MIPI_DSI_MODE_LPM) sent).
Proof.
  cbv zeta.
  cbv [samsung_ea8074_bl_get_brightness run bind when c_return pure modify
       mipi_dsi_dcs_get_display_brightness_large transfer].
  change (xfers (with_mode_flags _ w)) with (xfers w).
  destruct (status (bus (xfers w)) <? 0); reflexivity.
Qed.

(** When the brightness command succeeds, both operations leave the
    low-power-mode flag set. *)
Lemma backlight_success_sets_lpm requested w :
  0 <= status (bus (xfers w)) ->
  lpm (snd (samsung_ea8074_bl_update_status bus requested w)) =
    MIPI_DSI_MODE_LPM /\
  lpm (snd (samsung_ea8074_bl_get_brightness bus w)) = MIPI_DSI_MODE_LPM.
Proof.
  intros Hok.
  rewrite bl_update_status_cases, bl_get_brightness_cases. cbv zeta.
  destruct (Z.ltb_spec (status (bus (xfers w))) 0); [lia|].
  unfold lpm. cbn [snd with_mode_flags mode_flags].
  split; apply land_lor_same.
Qed.

(** C1, what the code does when the brightness command fails.  With
    the low-power-mode flag a mask within [unsigned long] and set before
    the call, a transfer that fails makes both operations return the
    error with the flag cleared: its value after the call is not its
    value before. *)
Theorem backlight_failure_leaves_lpm_cleared requested w :
  0 < MIPI_DSI_MODE_LPM < 2 ^ 64 ->
  lpm w = MIPI_DSI_MODE_LPM ->
  status (bus (xfers w)) < 0 ->
  let r1 := samsung_ea8074_bl_update_status bus requested w in
  let r2 := samsung_ea8074_bl_get_brightness bus w in
  fst r1 = status (bus (xfers w)) /\
  lpm (snd r1) = 0 /\ lpm (snd r1) <> lpm w /\
  fst r2 = status (bus (xfers w)) /\
  lpm (snd r2) = 0 /\ lpm (snd r2) <> lpm w.
Proof.
  intros Hm Hset Hko. cbv zeta.
  rewrite bl_update_status_cases, bl_get_brightness_cases. cbv zeta.
  destruct (Z.ltb_spec (status (bus (xfers w))) 0); [|lia].
  unfold lpm in *. cbn [fst snd emit with_mode_flags mode_flags].
  rewrite land_cleared, Hset by lia.
  repeat split; lia.
Qed.

(** C9, as the code has it.  [getBrightness] returns the error of the
    transfer when it fails, and otherwise the 16-bit value the host
    stored, unchanged: an integer in 0..65535. *)
Theorem bl_get_brightness_result w :
  let e := status (bus (xfers w)) in
  let r := fst (samsung_ea8074_bl_get_brightness bus w) in
  (e < 0 /\ r = e) \/
  (0 <= e /\ r = CInt.u16 (payload (bus (xfers w))) /\ 0 <= r <= 65535).
Proof.
  cbv zeta. rewrite bl_get_brightness_cases. cbv zeta.
  destruct (Z.ltb_spec (status (bus (xfers w))) 0); [left | right].
  - now split.
  - split; [assumption|]. split; [reflexivity | apply u16_range].
Qed.

End Backlight.

(** ** The display mode *)

(** C8.  The mode's pixel clock is its [htotal] times its [vtotal] times
    60, divided by 1000 (C integer division, no overflow of [int] on the
    way): 1192 * 2220 * 60 / 1000 = 158774 kHz. *)
Theorem mode_clock_from_totals :
  clock samsung_ea8074_mode =
    Z.quot (htotal samsung_ea8074_mode * vtotal samsung_ea8074_mode * 60) 1000
  /\ htotal samsung_ea8074_mode = 1080 + 48 + 16 + 48
  /\ vtotal samsung_ea8074_mode = 2160 + 20 + 12 + 28
  /\ clock samsung_ea8074_mode = 158774.
Proof. repeat split; vm_compute; reflexivity. Qed.

(** ** The driver on concrete hosts *)

Section Runs.

#[local] Existing Instance upstream_headers.

Lemma answering_healthy v w n : healthy (answering v) w n.
Proof. intros i _. cbn. lia. Qed.

Lemma failing_fails_at k e w :
  e < 0 -> xfers w = 0%nat -> fails_at (failing k e) w k.
Proof.
  intros He Hw. unfold fails_at, healthy, failing. rewrite Hw. cbn [Nat.add].
  split.
  - intros i Hi. destruct (Nat.eqb_spec i k); [lia | cbn; lia].
  - rewrite Nat.eqb_refl. exact He.
Defined.

(** The host fails the fifth power-on command with -EIO. *)
Lemma prepare_failure_rolls_back_witness :
  prepared probed_panel = false /\
  fails_at (failing 4 (- EIO)) probed_panel 4 /\
  fst (samsung_ea8074_prepare (failing 4 (- EIO)) probed_panel) = - EIO /\
  reset_gpio (snd (samsung_ea8074_prepare (failing 4 (- EIO)) probed_panel))
    = 1 /\
  prepared (snd (samsung_ea8074_prepare (failing 4 (- EIO)) probed_panel))
    = false /\
  transfers
    (trace (snd (samsung_ea8074_prepare (failing 4 (- EIO)) probed_panel)))
    = firstn 5 on_cmds.
Proof.
  assert (Hf : fails_at (failing 4 (- EIO)) probed_panel 4)
    by (apply failing_fails_at; [unfold EIO; lia | reflexivity]).
  split; [reflexivity|]. split; [exact Hf|].
  destruct (prepare_failure_rolls_back (failing 4 (- EIO)) probed_panel 4
              (seq_write MIPI_DCS_WRITE_CONTROL_DISPLAY [0x20] short_settle)
              eq_refl eq_refl Hf)
    as (Hr & _ & Hg & Hp & _ & Ht).
  split; [exact Hr|]. split; [exact Hg|]. split; [exact Hp | exact Ht].
Defined.

(** A host that answers everything, [prepare] called twice. *)
Lemma prepare_twice_sends_once_witness :
  prepared probed_panel = false /\
  healthy (answering 0) probed_panel (List.length on_steps) /\
  fst (samsung_ea8074_prepare (answering 0)
         (snd (samsung_ea8074_prepare (answering 0) probed_panel))) = 0 /\
  transfers (trace (snd (samsung_ea8074_prepare (answering 0)
         (snd (samsung_ea8074_prepare (answering 0) probed_panel)))))
    = on_cmds.
Proof.
  split; [reflexivity|]. split; [apply answering_healthy|].
  destruct (prepare_twice_sends_once (answering 0) probed_panel eq_refl
              (answering_healthy 0 probed_panel _))
    as (_ & _ & H2 & _ & _ & Ht).
  split; [exact H2 | exact Ht].
Defined.

(** A host that answers everything: the four commands are sent, in
    order. *)
Lemma on_command_order_witness :
  healthy (answering 0) probed_panel (List.length on_steps) /\
  fst (samsung_ea8074_on (answering 0) probed_panel) = 0 /\
  exists l1 l2 l3 l4,
    transfers (trace (snd (samsung_ea8074_on (answering 0) probed_panel))) =
    l1 ++ column_address :: l2 ++ page_address :: l3 ++
    memory_start :: l4 ++ [set_display_on].
Proof.
  split; [apply answering_healthy|].
  destruct (on_command_order (answering 0) probed_panel)
    as (sent & Htr & _ & _ & _ & _ & Hh & _).
  destruct (Hh (answering_healthy 0 probed_panel _))
    as (H0 & l1 & l2 & l3 & l4 & Hsent).
  split; [exact H0|]. exists l1, l2, l3, l4.
  rewrite Htr, Hsent. reflexivity.
Defined.

Lemma on_address_window_witness :
  healthy (answering 0) probed_panel (List.length on_steps) /\
  In (set_column_address 0 1079)
     (transfers (trace (snd (samsung_ea8074_on (answering 0) probed_panel))))
  /\
  In (set_page_address 0 2159)
     (transfers (trace (snd (samsung_ea8074_on (answering 0) probed_panel)))).
Proof.
  split; [apply answering_healthy|].
  destruct (on_address_window (answering 0) probed_panel)
    as (sent & Htr & _ & _ & _ & _ & _ & Hh & _).
  destruct (Hh (answering_healthy 0 probed_panel _)) as (_ & Hc & Hp).
  rewrite Htr. split; [exact Hc | exact Hp].
Defined.

Lemma on_display_on_twice_witness :
  healthy (answering 0) probed_panel (List.length on_steps) /\
  fst (samsung_ea8074_on (answering 0) probed_panel) = 0 /\
  count_display_on
    (trace (snd (samsung_ea8074_on (answering 0) probed_panel))) = 2%nat.
Proof.
  split; [apply answering_healthy|].
  destruct (on_display_on_twice (answering 0) probed_panel
              (answering_healthy 0 probed_panel _))
    as (H0 & es & Htr & Hc & _).
  split; [exact H0|]. rewrite Htr. exact Hc.
Defined.

(** C3, the claim as stated fails: the host fails display-off with
    -EIO, the power-off sequence returns -EIO, and [unprepare] returns 0
    to its caller. *)
Lemma unprepare_result_drops_error :
  prepared prepared_panel = true /\
  fst (samsung_ea8074_off (failing 0 (- EIO)) prepared_panel) = - EIO /\
  fst (samsung_ea8074_unprepare (failing 0 (- EIO)) prepared_panel) = 0 /\
  fst (samsung_ea8074_unprepare (failing 0 (- EIO)) prepared_panel)
    <> fst (samsung_ea8074_off (failing 0 (- EIO)) prepared_panel).
Proof. repeat split. vm_compute. discriminate. Qed.

Lemma unprepare_logs_failure_witness :
  prepared prepared_panel = true /\
  fst (samsung_ea8074_off (failing 0 (- EIO)) prepared_panel) < 0 /\
  fst (samsung_ea8074_unprepare (failing 0 (- EIO)) prepared_panel) = 0 /\
  dmesg (snd (samsung_ea8074_unprepare (failing 0 (- EIO)) prepared_panel))
    = [("Failed to set display off: %d\n"%string, [- EIO]);
       ("Failed to un-initialize panel: %d\n"%string, [- EIO])].
Proof.
  assert (Hneg : fst (samsung_ea8074_off (failing 0 (- EIO)) prepared_panel)
                 < 0) by reflexivity.
  split; [reflexivity|]. split; [exact Hneg|].
  destruct (unprepare_logs_failure (failing 0 (- EIO)) prepared_panel)
    as (H0 & _ & Hprepared).
  destruct (Hprepared eq_refl) as (_ & _ & Hfirst & _).
  destruct (Hfirst eq_refl) as [_ Hlog].
  split; [exact H0 | exact Hlog].
Defined.

Lemma unprepare_best_effort_witness :
  prepared prepared_panel = true /\
  status (failing 0 (- EIO) (xfers prepared_panel)) < 0 /\
  reset_gpio
    (snd (samsung_ea8074_unprepare (failing 0 (- EIO)) prepared_panel))
    = 1 /\
  prepared
    (snd (samsung_ea8074_unprepare (failing 0 (- EIO)) prepared_panel))
    = false.
Proof.
  split; [reflexivity|]. split; [reflexivity|].
  destruct (unprepare_best_effort (failing 0 (- EIO)) prepared_panel
              eq_refl eq_refl) as (Hg & Hp & _).
  split; [exact Hg | exact Hp].
Defined.

(** The panel as probed, brightness 512 requested, the host failing the
    brightness command with -EIO: the flag was 0x800 and is 0. *)
Lemma backlight_failure_leaves_lpm_cleared_witness :
  0 < MIPI_DSI_MODE_LPM < 2 ^ 64 /\
  lpm probed_panel = 0x800 /\
  status (failing 0 (- EIO) (xfers probed_panel)) < 0 /\
  fst (samsung_ea8074_bl_update_status (failing 0 (- EIO)) 512 probed_panel)
    = - EIO /\
  lpm (snd (samsung_ea8074_bl_update_status (failing 0 (- EIO)) 512
              probed_panel)) = 0 /\
  fst (samsung_ea8074_bl_get_brightness (failing 0 (- EIO)) probed_panel)
    = - EIO /\
  lpm (snd (samsung_ea8074_bl_get_brightness (failing 0 (- EIO))
              probed_panel)) = 0.
Proof.
  assert (Hm : 0 < MIPI_DSI_MODE_LPM < 2 ^ 64) by (split; reflexivity).
  split; [exact Hm|]. split; [reflexivity|]. split; [reflexivity|].
  destruct (backlight_failure_leaves_lpm_cleared (failing 0 (- EIO)) 512
              probed_panel Hm eq_refl eq_refl)
    as (H1 & H2 & _ & H3 & H4 & _).
  split; [exact H1|]. split; [exact H2|]. split; [exact H3 | exact H4].
Defined.

(** C9, the claim as stated fails: the host answers the brightness
    read with success and the value 0xffff, and [getBrightness] returns
    65535, which is neither an error nor within 0..1023. *)
Lemma bl_get_brightness_above_max :
  status (answering 0xffff (xfers probed_panel)) = 0 /\
  fst (samsung_ea8074_bl_get_brightness (answering 0xffff) probed_panel)
    = 65535 /\
  ~ (0 <= fst (samsung_ea8074_bl_get_brightness (answering 0xffff)
                 probed_panel) <= 1023).
Proof.
  split; [reflexivity|]. split; [reflexivity|].
  change (fst (samsung_ea8074_bl_get_brightness (answering 0xffff)
            probed_panel)) with 65535.
  lia.
Qed.

End Runs.

(** * Further properties of the panel driver *)

(** ** Bits *)

Lemma testbit_above k z n :
  0 <= z < 2 ^ k -> 0 <= k <= n -> Z.testbit z n = false.
Proof.
  intros Hz Hn. rewrite <- (Z.mod_small z (2 ^ k)) by lia.
  apply Z.mod_pow2_bits_high. lia.
Qed.

(** Clearing the bits of [m] in a [k]-bit word, the way [f & ~m] does. *)
Lemma clear_bits_spec k f m n :
  0 <= k -> 0 <= f < 2 ^ k -> 0 <= m < 2 ^ k -> 0 <= n ->
  Z.testbit (Z.land f (Z.lxor (m mod 2 ^ k) (Z.ones k))) n =
  Z.testbit f n && negb (Z.testbit m n).
Proof.
  intros Hk Hf Hm Hn. rewrite Z.land_spec, Z.lxor_spec, (Z.mod_small m) by lia.
  destruct (Z_lt_le_dec n k) as [Hlt | Hge].
  - rewrite Z.ones_spec_low by lia. now rewrite xorb_true_r.
  - rewrite (testbit_above k f n) by lia. reflexivity.
Qed.

(** ** Power sequencing for every behaviour of the host *)

Lemma Forall_prefix {A} (P : A -> Prop) l n : Forall P l -> Forall P (firstn n l).
Proof.
  intros H. revert n. induction H as [|a l Ha Hl IH]; intros [|n]; simpl;
    constructor; auto.
Qed.

(** In the events of a sequence, cut short or not by a transfer that
    fails, whatever follows a transfer is the sleep of its step. *)
Lemma sleep_follows_transfer (P : delay -> Prop) steps tail :
  Forall (fun s => P (settle s)) steps ->
  tail = [] \/ (exists c, tail = [Xfer c]) ->
  forall i c e,
    nth_error (step_events steps ++ tail) i = Some (Xfer c) ->
    nth_error (step_events steps ++ tail) (S i) = Some e ->
    exists d, e = Sleep d /\ P d.
Proof.
  intros HP Htail. induction HP as [|s rest Hs Hrest IH]; intros i c e Hi Hn.
  - cbn in *. destruct Htail as [-> | [c0 ->]].
    + destruct i; discriminate.
    + destruct i as [|[|i]]; discriminate.
  - cbn [step_events flat_map app] in *.
    destruct i as [|[|i]]; cbn [nth_error] in *.
    + injection Hn as <-. now exists (settle s).
    + discriminate.
    + now apply (IH i c e).
Qed.

Section PowerCycle.

Context {hdr : headers}.
Variable bus : nat -> reply.

Lemma on_steps_settle :
  Forall (fun s => 10000 <= min_usecs (settle s)) on_steps.
Proof. unfold on_steps. repeat constructor; cbn; lia. Qed.

(** X7.  Settle times.  In every run of the power-on sequence, whatever the
    host does, each command that is followed by anything is followed by a
    sleep of at least 10 ms before the next command. *)
Theorem on_settles_after_each_command w :
  exists es,
    trace (snd (samsung_ea8074_on bus w)) = trace w ++ es /\
    forall i c e,
      nth_error es i = Some (Xfer c) ->
      nth_error es (S i) = Some e ->
      exists d, e = Sleep d /\ 10000 <= min_usecs d.
Proof.
  destruct (healthy_or_fails bus w (List.length on_steps))
    as [H | (k & Hk & Hf)].
  - exists (step_events on_steps). rewrite (on_healthy bus w H).
    split; [reflexivity|]. intros i c e.
    rewrite <- (app_nil_r (step_events on_steps)).
    apply sleep_follows_transfer; [apply on_steps_settle | now left].
  - destruct (nth_error on_steps k) as [s|] eqn:Hs.
    2:{ apply nth_error_None in Hs. lia. }
    exists (step_events (firstn k on_steps) ++ [Xfer (cmd s)]).
    rewrite (on_fails bus w k s Hs Hf). split; [reflexivity|].
    apply sleep_follows_transfer.
    + apply Forall_prefix, on_steps_settle.
    + right. now exists (cmd s).
Qed.

(** The world a failed [prepare] leaves. *)
Lemma prepare_fails w k s :
  prepared w = false ->
  nth_error on_steps k = Some s ->
  fails_at bus w k ->
  let e := status (bus (xfers w + k)) in
  samsung_ea8074_prepare bus w =
  (e, emit (Gpio 1) (with_reset_gpio 1
        (printk "Failed to initialize panel: %d\n" [e]
          (printk (fst (report s e)) (snd (report s e))
            (emits (step_events (firstn k on_steps) ++ [Xfer (cmd s)])
                   (after_reset w)))))).
Proof.
  intros Hp Hs [Hok Hko] e.
  rewrite (prepare_when_unprepared bus w Hp).
  rewrite (on_fails bus (after_reset w) k s Hs).
  - rewrite xfers_after_reset. fold e.
    destruct (Z.ltb_spec e 0); [reflexivity | subst e; lia].
  - split.
    + intros i Hi. rewrite xfers_after_reset. now apply Hok.
    + now rewrite xfers_after_reset.
Qed.

(** X1.  The scenario of a healthy host.  [prepare] on an unprepared panel
    whose host answers the whole sequence returns 0 with [prepared] set;
    the reset line was released, asserted and released again before the
    first command and is left released; nothing is logged and the mode
    flags are untouched. *)
Theorem prepare_on_healthy_host w :
  prepared w = false ->
  healthy bus w (List.length on_steps) ->
  let r := samsung_ea8074_prepare bus w in
  fst r = 0 /\
  prepared (snd r) = true /\
  reset_gpio (snd r) = 0 /\
  trace (snd r) =
    trace w ++
    [Gpio 0; Sleep (Usleep 1000 2000); Gpio 1; Sleep (Usleep 1000 2000);
     Gpio 0; Sleep (Usleep 10000 11000)] ++
    step_events on_steps /\
  dmesg (snd r) = dmesg w /\
  mode_flags (snd r) = mode_flags w.
Proof.
  intros Hp H r. subst r. rewrite (prepare_succeeds bus w Hp H).
  cbn [fst snd with_prepared emits after_reset with_reset_gpio
       prepared reset_gpio trace dmesg mode_flags].
  repeat split. now rewrite <- app_assoc.
Qed.

(** X2.  Result and state agree.  [prepare] on an unprepared panel, for
    every behaviour of the host, either returns 0 with the panel prepared
    and the reset line released, or returns a negative error with the
    panel unprepared and the reset line asserted. *)
Theorem prepare_result_tells_state w :
  prepared w = false ->
  let r := samsung_ea8074_prepare bus w in
  (fst r = 0 /\ prepared (snd r) = true /\ reset_gpio (snd r) = 0) \/
  (fst r < 0 /\ prepared (snd r) = false /\ reset_gpio (snd r) = 1).
Proof.
  intros Hp r. subst r.
  destruct (healthy_or_fails bus w (List.length on_steps))
    as [H | (k & Hk & Hf)].
  - left. rewrite (prepare_succeeds bus w Hp H). now repeat split.
  - right. destruct (nth_error on_steps k) as [s|] eqn:Hs.
    2:{ apply nth_error_None in Hs. lia. }
    rewrite (prepare_fails w k s Hp Hs Hf).
    cbn [fst snd emit with_reset_gpio printk emits after_reset
         prepared reset_gpio].
    split; [apply Hf|]. split; [exact Hp | reflexivity].
Qed.

(** X8.  The mode flags belong to the backlight.  Neither [prepare] nor
    [unprepare] changes [dsi->mode_flags], whatever the state of the panel
    and the behaviour of the host. *)
Theorem power_ops_keep_mode_flags w :
  mode_flags (snd (samsung_ea8074_prepare bus w)) = mode_flags w /\
  mode_flags (snd (samsung_ea8074_unprepare bus w)) = mode_flags w.
Proof.
  split.
  - destruct (prepared w) eqn:Hp.
    + now rewrite (prepare_when_prepared bus w Hp).
    + destruct (healthy_or_fails bus w (List.length on_steps))
        as [H | (k & Hk & Hf)].
      * now rewrite (prepare_succeeds bus w Hp H).
      * destruct (nth_error on_steps k) as [s|] eqn:Hs.
        2:{ apply nth_error_None in Hs. lia. }
        now rewrite (prepare_fails w k s Hp Hs Hf).
  - destruct (prepared w) eqn:Hp.
    + rewrite (unprepare_when_prepared bus w Hp).
      destruct (off_cases bus w)
        as [(_ & Ho) | [(_ & _ & Ho) | (_ & _ & Ho)]]; rewrite Ho;
        match goal with |- context [?x <? 0] => destruct (x <? 0) end;
        reflexivity.
    + cbv [samsung_ea8074_unprepare run bind get when c_return].
      now rewrite Hp.
Qed.

End PowerCycle.

Section Teardown.

Context {hdr : headers}.
Variable bus : nat -> reply.

Lemma unprepare_when_unprepared w :
  prepared w = false -> samsung_ea8074_unprepare bus w = (0, w).
Proof.
  intros Hp. cbv [samsung_ea8074_unprepare run bind get when c_return].
  now rewrite Hp.
Qed.

(** X6.  Unprepare twice.  For every state of the panel and every
    behaviour of the host, [unprepare] returns 0 and leaves the panel
    unprepared, and a second [unprepare] right after it returns 0 and
    changes nothing: it sends no command and does not drive the reset
    line. *)
Theorem unprepare_twice w :
  let r1 := samsung_ea8074_unprepare bus w in
  let r2 := samsung_ea8074_unprepare bus (snd r1) in
  fst r1 = 0 /\ prepared (snd r1) = false /\ r2 = (0, snd r1).
Proof.
  cbv zeta.
  assert (H1 : fst (samsung_ea8074_unprepare bus w) = 0 /\
               prepared (snd (samsung_ea8074_unprepare bus w)) = false).
  { destruct (prepared w) eqn:Hp.
    - rewrite (unprepare_when_prepared bus w Hp).
      destruct (samsung_ea8074_off bus w) as [ret w2]. now split.
    - rewrite (unprepare_when_unprepared w Hp). now split. }
  destruct H1 as [H0 Hu]. split; [exact H0|]. split; [exact Hu|].
  now apply unprepare_when_unprepared.
Qed.

(** X5.  Teardown for every outcome.  [unprepare] on a prepared panel
    sends display-off, and enter-sleep only if display-off was accepted;
    whatever the host answers, asserting the reset line is the last thing
    that happens, [unprepare] returns 0 and the panel is unprepared. *)
Theorem unprepare_always_asserts_reset w :
  prepared w = true ->
  let r := samsung_ea8074_unprepare bus w in
  fst r = 0 /\
  prepared (snd r) = false /\
  reset_gpio (snd r) = 1 /\
  exists es,
    trace (snd r) = trace w ++ es ++ [Gpio 1] /\
    transfers es =
      if status (bus (xfers w)) <? 0 then [set_display_off]
      else [set_display_off; enter_sleep_mode].
Proof.
  intros Hp r. subst r. rewrite (unprepare_when_prepared bus w Hp).
  destruct (off_cases bus w)
    as [(H1 & Ho) | [(H1 & H2 & Ho) | (H1 & H2 & Ho)]]; rewrite Ho;
    cbv beta iota;
    destruct (Z.ltb_spec (status (bus (xfers w))) 0); try lia;
    repeat split.
  - exists [Xfer set_display_off]. split; [|reflexivity].
    cbn. now rewrite <- app_assoc.
  - exists [Xfer set_display_off; Xfer enter_sleep_mode].
    split; [|reflexivity].
    destruct (Z.ltb_spec (status (bus (xfers (display_off_sent w)))) 0);
      [|lia].
    cbn. now rewrite <- !app_assoc.
  - exists [Xfer set_display_off; Xfer enter_sleep_mode; Sleep (Msleep 120)].
    split; [|reflexivity].
    cbn. now rewrite <- !app_assoc.
Qed.

Lemma xfers_prepared_world w :
  xfers (with_prepared true (emits (step_events on_steps) (after_reset w)))
  = (xfers w + List.length on_steps)%nat.
Proof.
  change (xfers (with_prepared true ?x)) with (xfers x).
  rewrite xfers_emits, xfers_after_reset, transfers_step_events.
  now rewrite length_map.
Qed.

(** X4.  A full power cycle.  On an unprepared panel whose host answers
    the 27 power-on and the 2 power-off commands, [prepare] followed by
    [unprepare] both return 0 and leave the panel unprepared with the
    reset line asserted; the trace holds the reset pulse, the power-on
    sequence, display-off, enter-sleep, the 120 ms sleep and the reset
    assertion, in this order, and nothing is logged. *)
Theorem prepare_then_unprepare w :
  prepared w = false ->
  healthy bus w (List.length on_steps + 2) ->
  let r1 := samsung_ea8074_prepare bus w in
  let r2 := samsung_ea8074_unprepare bus (snd r1) in
  fst r1 = 0 /\ fst r2 = 0 /\
  prepared (snd r2) = false /\
  reset_gpio (snd r2) = 1 /\
  trace (snd r2) =
    trace w ++ reset_pulse ++ step_events on_steps ++
    [Xfer set_display_off; Xfer enter_sleep_mode; Sleep (Msleep 120);
     Gpio 1] /\
  dmesg (snd r2) = dmesg w.
Proof.
  intros Hp H r1 r2. subst r1 r2.
  assert (H27 : healthy bus w (List.length on_steps))
    by (intros i Hi; apply H; lia).
  rewrite (prepare_succeeds bus w Hp H27). cbn [fst snd].
  set (w1 := with_prepared true
               (emits (step_events on_steps) (after_reset w))).
  assert (Hx : xfers w1 = (xfers w + List.length on_steps)%nat)
    by apply xfers_prepared_world.
  rewrite (unprepare_when_prepared bus w1 eq_refl).
  destruct (off_cases bus w1)
    as [(H1 & _) | [(_ & H2 & _) | (_ & _ & Ho)]].
  - rewrite Hx in H1. specialize (H (List.length on_steps)). lia.
  - unfold display_off_sent in H2. rewrite xfers_emit_xfer, Hx in H2.
    specialize (H (S (List.length on_steps))).
    replace (xfers w + S (List.length on_steps))%nat
      with (S (xfers w + List.length on_steps)) in H by lia.
    lia.
  - rewrite Ho. cbn [fst snd]. change (0 <? 0) with false.
    subst w1.
    cbn [with_prepared emit emits after_reset with_reset_gpio display_off_sent
         prepared reset_gpio trace dmesg].
    repeat split. rewrite <- !app_assoc. reflexivity.
Qed.

(** X3.  Retry is the caller's.  After a [prepare] that failed at step
    [k], a second [prepare] on a host that now answers starts over: the
    first call left the reset pulse, the steps up to the failing one and
    the reset assertion in the trace; the second adds the whole reset
    pulse (release, assert, release, with their sleeps) and then every
    step of the sequence with its delay, returns 0 and leaves the panel
    prepared with the reset line released. *)
Theorem prepare_retry_after_failure w k s :
  prepared w = false ->
  nth_error on_steps k = Some s ->
  fails_at bus w k ->
  (forall i, (i < List.length on_steps)%nat ->
     0 <= status (bus (xfers w + S k + i))) ->
  let r1 := samsung_ea8074_prepare bus w in
  let r2 := samsung_ea8074_prepare bus (snd r1) in
  fst r1 < 0 /\ fst r2 = 0 /\
  prepared (snd r2) = true /\
  reset_gpio (snd r2) = 0 /\
  trace (snd r1) =
    trace w ++
    [Gpio 0; Sleep (Usleep 1000 2000); Gpio 1; Sleep (Usleep 1000 2000);
     Gpio 0; Sleep (Usleep 10000 11000)] ++
    step_events (firstn k on_steps) ++ [Xfer (cmd s); Gpio 1] /\
  trace (snd r2) =
    trace (snd r1) ++
    [Gpio 0; Sleep (Usleep 1000 2000); Gpio 1; Sleep (Usleep 1000 2000);
     Gpio 0; Sleep (Usleep 10000 11000)] ++
    step_events on_steps /\
  transfers (trace (snd r2)) =
    transfers (trace w) ++ firstn (S k) on_cmds ++ on_cmds.
Proof.
  intros Hp Hs Hf Hlater r1 r2. subst r1 r2.
  rewrite (prepare_fails bus w k s Hp Hs Hf). cbn [fst snd].
  set (w1 := emit (Gpio 1) _).
  assert (Hp1 : prepared w1 = false) by exact Hp.
  assert (Ht1 : transfers (trace w1) =
                transfers (trace w) ++ firstn (S k) on_cmds).
  { subst w1. cbn [emit with_reset_gpio printk emits after_reset trace].
    rewrite !transfers_app, transfers_step_events.
    cbn [transfers reset_pulse app]. unfold on_cmds.
    rewrite (firstn_snoc (map cmd on_steps) k (cmd s))
      by (now rewrite nth_error_map, Hs).
    now rewrite firstn_map, app_nil_r, <- app_assoc. }
  assert (Hx1 : xfers w1 = (xfers w + S k)%nat).
  { assert (Hk : (k < List.length on_steps)%nat)
      by (apply nth_error_Some; rewrite Hs; discriminate).
    unfold xfers at 1. rewrite Ht1, length_app. unfold xfers. f_equal.
    apply firstn_length_le. unfold on_cmds. rewrite length_map. lia. }
  assert (H1 : healthy bus w1 (List.length on_steps)).
  { intros i Hi. rewrite Hx1. now apply Hlater. }
  rewrite (prepare_succeeds bus w1 Hp1 H1).
  cbn [fst snd with_prepared emits after_reset with_reset_gpio
       prepared reset_gpio trace].
  split; [apply Hf|]. split; [reflexivity|]. split; [reflexivity|].
  split; [reflexivity|].
  split; [|split].
  - subst w1. cbn [emit with_reset_gpio printk emits after_reset trace].
    fold reset_pulse. now rewrite <- !app_assoc.
  - fold reset_pulse. now rewrite <- app_assoc.
  - rewrite !transfers_app, transfers_step_events, Ht1.
    cbn [transfers reset_pulse]. now rewrite app_nil_r, <- app_assoc.
Qed.

End Teardown.

(** ** More on the backlight operations *)

Section BacklightMore.

Context {hdr : headers}.
Variable bus : nat -> reply.

(** X9.  The request goes out as it is.  With a host that accepts the
    transfer, [bl_update_status] sends exactly one command, the large
    brightness write carrying the requested value, for every value up to
    65535 and not only up to the registered maximum of 1023, and
    returns 0. *)
Theorem bl_update_status_sends_request requested w :
  0 <= requested <= 65535 ->
  0 <= status (bus (xfers w)) ->
  let r := samsung_ea8074_bl_update_status bus requested w in
  fst r = 0 /\
  trace (snd r) = trace w ++ [Xfer (set_display_brightness_large requested)].
Proof.
  intros Hreq Hok r. subst r. rewrite bl_update_status_cases. cbv zeta.
  destruct (Z.ltb_spec (status (bus (xfers w))) 0); [lia|].
  rewrite (u16_small requested Hreq). now split.
Qed.

(** X10.  The backlight leaves the panel alone.  Whatever the host
    answers, each backlight operation makes exactly one transfer, its
    brightness command, and changes neither [prepared] nor the reset line
    nor the log. *)
Theorem backlight_ops_frame requested w :
  let r1 := samsung_ea8074_bl_update_status bus requested w in
  let r2 := samsung_ea8074_bl_get_brightness bus w in
  (transfers (trace (snd r1)) =
     transfers (trace w) ++
     [set_display_brightness_large (CInt.u16 requested)] /\
   prepared (snd r1) = prepared w /\
   reset_gpio (snd r1) = reset_gpio w /\
   dmesg (snd r1) = dmesg w) /\
  (transfers (trace (snd r2)) =
     transfers (trace w) ++ [get_display_brightness_large] /\
   prepared (snd r2) = prepared w /\
   reset_gpio (snd r2) = reset_gpio w /\
   dmesg (snd r2) = dmesg w).
Proof.
  cbv zeta. rewrite bl_update_status_cases, bl_get_brightness_cases.
  cbv zeta.
  destruct (status (bus (xfers w)) <? 0);
    cbn [fst snd emit with_mode_flags trace prepared reset_gpio dmesg];
    rewrite !transfers_app; now repeat split.
Qed.

(** X11.  Only the low-power bit moves.  With the mode flags and the
    low-power mask within [unsigned long], every bit of [dsi->mode_flags]
    outside the mask has after either backlight operation the value it
    had before, whether the transfer succeeded or failed. *)
Theorem backlight_touches_only_lpm requested w n :
  0 <= mode_flags w < 2 ^ 64 ->
  0 <= MIPI_DSI_MODE_LPM < 2 ^ 64 ->
  0 <= n ->
  Z.testbit MIPI_DSI_MODE_LPM n = false ->
  Z.testbit
    (mode_flags (snd (samsung_ea8074_bl_update_status bus requested w))) n
    = Z.testbit (mode_flags w) n /\
  Z.testbit (mode_flags (snd (samsung_ea8074_bl_get_brightness bus w))) n
    = Z.testbit (mode_flags w) n.
Proof.
  intros Hf Hm Hn Hbit.
  rewrite bl_update_status_cases, bl_get_brightness_cases. cbv zeta.
  assert (Hc : Z.testbit
            (Z.land (mode_flags w) (CInt.ulong_not MIPI_DSI_MODE_LPM)) n
          = Z.testbit (mode_flags w) n).
  { unfold CInt.ulong_not, CInt.ulong. change (2 ^ 64 - 1) with (Z.ones 64).
    rewrite clear_bits_spec by lia. rewrite Hbit. apply andb_true_r. }
  destruct (status (bus (xfers w)) <? 0);
    cbn [snd emit with_mode_flags mode_flags];
    rewrite ?Z.lor_spec, Hc, ?Hbit, ?orb_false_r; now split.
Qed.

(** X12.  The next success repairs the flag.  After a backlight operation
    that failed, and so left the low-power flag cleared, the next
    backlight operation whose transfer succeeds leaves the flag set. *)
Theorem backlight_success_after_failure_sets_lpm requested requested' w :
  status (bus (xfers w)) < 0 ->
  0 <= status (bus (S (xfers w))) ->
  let r1 := samsung_ea8074_bl_update_status bus requested w in
  let r2 := samsung_ea8074_bl_update_status bus requested' (snd r1) in
  let r3 := samsung_ea8074_bl_get_brightness bus (snd r1) in
  fst r1 < 0 /\
  fst r2 = 0 /\ lpm (snd r2) = MIPI_DSI_MODE_LPM /\
  0 <= fst r3 /\ lpm (snd r3) = MIPI_DSI_MODE_LPM.
Proof.
  intros Hko Hok r1 r2 r3.
  assert (H1 : r1 = (status (bus (xfers w)),
            emit (Xfer (set_display_brightness_large (CInt.u16 requested)))
              (with_mode_flags
                 (Z.land (mode_flags w)
                    (CInt.ulong_not MIPI_DSI_MODE_LPM)) w))).
  { subst r1. rewrite bl_update_status_cases. cbv zeta.
    destruct (Z.ltb_spec (status (bus (xfers w))) 0); [reflexivity | lia]. }
  assert (Hx : xfers (snd r1) = S (xfers w)).
  { rewrite H1. cbn [snd]. rewrite xfers_emit_xfer. reflexivity. }
  assert (Hok' : 0 <= status (bus (xfers (snd r1)))) by now rewrite Hx.
  destruct (backlight_success_sets_lpm bus requested' (snd r1) Hok')
    as [Hl2 Hl3].
  split; [now rewrite H1|].
  split; [|split; [exact Hl2 | split; [|exact Hl3]]].
  - subst r2. rewrite bl_update_status_cases. cbv zeta.
    destruct (Z.ltb_spec (status (bus (xfers (snd r1)))) 0); [lia|].
    reflexivity.
  - subst r3. rewrite bl_get_brightness_cases. cbv zeta.
    destruct (Z.ltb_spec (status (bus (xfers (snd r1)))) 0); [lia|].
    apply u16_range.
Qed.

End BacklightMore.

(** ** get_modes *)

Section GetModesFacts.

Context {dh : drm_headers}.
Variable name_of : drm_display_mode -> string.

(** X13.  One mode or none.  [get_modes] returns the number of modes it
    added: with memory for the copy it returns 1 and appends one mode to
    the connector's probed modes, with the timings of
    [samsung_ea8074_mode] (1080 x 2160), named by the DRM core, of type
    driver and preferred, and sets the connector's physical size to
    68 mm x 137 mm; without memory it returns -ENOMEM and leaves the
    connector as it was. *)
Theorem get_modes_adds_what_it_returns alloc_ok connector :
  let r := samsung_ea8074_get_modes name_of alloc_ok connector in
  if alloc_ok then
    fst r = 1 /\
    (exists m,
       probed_modes (snd r) = probed_modes connector ++ [m] /\
       timing m = samsung_ea8074_mode /\
       hdisplay (timing m) = 1080 /\ vdisplay (timing m) = 2160 /\
       mode_name m = name_of samsung_ea8074_mode /\
       Z.land (mode_type m) DRM_MODE_TYPE_DRIVER = DRM_MODE_TYPE_DRIVER /\
       Z.land (mode_type m) DRM_MODE_TYPE_PREFERRED
         = DRM_MODE_TYPE_PREFERRED) /\
    info_width_mm (snd r) = 68 /\ info_height_mm (snd r) = 137
  else
    fst r = - ENOMEM /\ snd r = connector.
Proof.
  destruct alloc_ok; cbn.
  - split; [reflexivity|]. split; [|now split].
    eexists. split; [reflexivity|]. cbn.
    repeat split.
    + rewrite Z.lor_comm. apply land_lor_same.
    + apply land_lor_same.
  - now split.
Qed.

End GetModesFacts.

(** ** probe and remove *)

Section BindFacts.

Context {hdr : headers} {dh : drm_headers}.

(** Runs the assignments of [probe] and [remove] in order, innermost
    first. *)
Ltac run_binding :=
  cbv beta iota zeta delta
    [called logged dsi_lanes dsi_format dsi_mode_flags ctx_prepared
     prepare_prev_first panel_added calls klog negb fst snd].

(** The state a [probe] in which every step succeeds leaves. *)
Lemma probe_ok_state env b :
  kzalloc_ok env = true ->
  gpiod_get env = ptr_ok ->
  backlight_register env = ptr_ok ->
  0 <= attach_ret env ->
  samsung_ea8074_probe env b =
  (0, {| dsi_lanes := 4; dsi_format := MIPI_DSI_FMT_RGB888;
         dsi_mode_flags := mode_flags probed;
         ctx_prepared := false; prepare_prev_first := true;
         panel_added := true;
         calls := calls b ++ probe_calls; klog := klog b |}).
Proof.
  intros Hk Hg Hb Ha. destruct b as [l f mf cp ppf added cs kl].
  unfold samsung_ea8074_probe, samsung_ea8074_create_backlight.
  rewrite Hk, Hg, Hb.
  destruct (Z.ltb_spec (attach_ret env) 0); [lia|].
  run_binding. unfold probe_calls, probed. cbn [mode_flags].
  now rewrite <- !app_assoc.
Qed.

(** X14.  What a successful probe leaves.  When the allocation, the reset
    GPIO, the backlight and the attach all succeed, [probe] returns 0 with
    the panel on the DRM core's list, four lanes, RGB888, the mode flags
    and the unprepared state from which the power sequencing starts, the
    low-power flag set, and the backlight registered with brightness and
    maximum 1023 before the panel is added. *)
Theorem probe_success env b :
  kzalloc_ok env = true ->
  gpiod_get env = ptr_ok ->
  backlight_register env = ptr_ok ->
  0 <= attach_ret env ->
  let r := samsung_ea8074_probe env b in
  fst r = 0 /\
  panel_added (snd r) = true /\
  dsi_lanes (snd r) = 4 /\
  dsi_format (snd r) = MIPI_DSI_FMT_RGB888 /\
  dsi_mode_flags (snd r) = mode_flags probed /\
  Z.land (dsi_mode_flags (snd r)) MIPI_DSI_MODE_LPM = MIPI_DSI_MODE_LPM /\
  ctx_prepared (snd r) = prepared probed /\
  prepare_prev_first (snd r) = true /\
  calls (snd r) = calls b ++ probe_calls /\
  klog (snd r) = klog b.
Proof.
  intros Hk Hg Hb Ha r. subst r.
  rewrite (probe_ok_state env b Hk Hg Hb Ha).
  cbn [fst snd dsi_lanes dsi_format dsi_mode_flags ctx_prepared
       prepare_prev_first panel_added calls klog].
  repeat split. apply land_lor_same.
Qed.

(** X15.  A failed probe leaves no panel behind.  On a device whose panel is
    not on the DRM core's list, if the panel is on the list when [probe]
    returns, then [probe] returned 0 and every step succeeded; in
    particular a failed attach, which comes after the panel was added,
    takes it off the list again and returns the attach error. *)
Theorem probe_failure_leaves_no_panel env b :
  panel_added b = false ->
  let r := samsung_ea8074_probe env b in
  (panel_added (snd r) = true ->
   fst r = 0 /\ kzalloc_ok env = true /\ gpiod_get env = ptr_ok /\
   backlight_register env = ptr_ok /\ 0 <= attach_ret env) /\
  (kzalloc_ok env = true -> gpiod_get env = ptr_ok ->
   backlight_register env = ptr_ok -> attach_ret env < 0 ->
   fst r = attach_ret env /\
   calls (snd r) = calls b ++ probe_calls ++ [drm_panel_remove]).
Proof.
  intros Hb r. subst r. destruct b as [l f mf cp ppf added cs kl].
  cbn [panel_added] in Hb. subst added.
  unfold samsung_ea8074_probe, samsung_ea8074_create_backlight.
  split.
  - destruct (kzalloc_ok env);
      [|run_binding; intros Hadded; congruence].
    destruct (gpiod_get env); [|run_binding; intros Hadded; congruence].
    destruct (backlight_register env);
      [|run_binding; intros Hadded; congruence].
    destruct (Z.ltb_spec (attach_ret env) 0); run_binding; intros Hadded;
      [discriminate|]. now repeat split.
  - intros -> -> -> Ha.
    destruct (Z.ltb_spec (attach_ret env) 0); [|lia].
    run_binding. split; [reflexivity|]. unfold probe_calls.
    now rewrite <- !app_assoc.
Qed.

(** X16.  Remove undoes probe.  [remove] detaches from the host and then
    takes the panel off the list, also when the detach fails, which is
    logged and nothing more; after a successful [probe], the panel was
    added once and removed once. *)
Theorem probe_then_remove env b :
  kzalloc_ok env = true ->
  gpiod_get env = ptr_ok ->
  backlight_register env = ptr_ok ->
  0 <= attach_ret env ->
  let b1 := snd (samsung_ea8074_probe env b) in
  let b2 := samsung_ea8074_remove env b1 in
  panel_added b2 = false /\
  calls b2 = calls b ++ probe_calls ++ [mipi_dsi_detach; drm_panel_remove] /\
  times is_panel_add (probe_calls ++ [mipi_dsi_detach; drm_panel_remove])
    = times is_panel_remove
        (probe_calls ++ [mipi_dsi_detach; drm_panel_remove]) /\
  klog b2 =
    klog b ++
    (if detach_ret env <? 0
     then [("Failed to detach from DSI host: %d\n"%string, [detach_ret env])]
     else []).
Proof.
  intros Hk Hg Hb Ha b1 b2. subst b1 b2.
  rewrite (probe_ok_state env b Hk Hg Hb Ha). cbn [snd].
  destruct b as [l f mf cp ppf added cs kl].
  unfold samsung_ea8074_remove.
  destruct (detach_ret env <? 0); run_binding;
    rewrite <- ?app_assoc, ?app_nil_r; now repeat split.
Qed.

End BindFacts.

(** * Properties of the regmap clock helpers *)

Lemma uint_not_spec m n :
  0 <= n ->
  Z.testbit (uint_not m) n = (n <? 32) && negb (Z.testbit m n).
Proof.
  intros Hn. unfold uint_not, uint. rewrite Z.lxor_spec.
  change (2 ^ 32 - 1) with (Z.ones 32).
  destruct (Z.ltb_spec n 32) as [Hlt | Hge].
  - rewrite Z.mod_pow2_bits_low, Z.ones_spec_low by lia.
    now rewrite xorb_true_r.
  - rewrite Z.mod_pow2_bits_high, Z.ones_spec_high by lia. reflexivity.
Qed.

(** The bits of a register after an update that works. *)
Lemma updated_bit old mask val n :
  0 <= n ->
  Z.testbit (Z.lor (Z.land old (uint_not mask)) (Z.land val mask)) n =
  (Z.testbit old n && ((n <? 32) && negb (Z.testbit mask n)))
  || (Z.testbit val n && Z.testbit mask n).
Proof.
  intros Hn. now rewrite Z.lor_spec, !Z.land_spec, uint_not_spec.
Qed.

(** The masked bits of a register after an update that works are those of
    the value written. *)
Lemma updated_masked old mask val :
  Z.land (Z.lor (Z.land old (uint_not mask)) (Z.land val mask)) mask =
  Z.land val mask.
Proof.
  apply Z.bits_inj'. intros n Hn.
  rewrite Z.land_spec, updated_bit, Z.land_spec by assumption.
  destruct (Z.testbit old n), (Z.testbit val n), (Z.testbit mask n),
    (n <? 32); reflexivity.
Qed.

Section ClkRegmap.

Variable rclk : clk_regmap.
Variable regs : registers.

Lemma enable_ok (g : registers) :
  clk_enable_regmap 0 rclk g =
  (0, fun r =>
        if r =? enable_reg rclk
        then Z.lor (Z.land (g (enable_reg rclk))
                           (uint_not (enable_mask rclk)))
                   (Z.land (if enable_is_inverted rclk then 0
                            else enable_mask rclk)
                           (enable_mask rclk))
        else g r).
Proof. reflexivity. Qed.

Lemma disable_ok (g : registers) :
  clk_disable_regmap 0 rclk g =
  fun r =>
    if r =? enable_reg rclk
    then Z.lor (Z.land (g (enable_reg rclk))
                       (uint_not (enable_mask rclk)))
               (Z.land (if enable_is_inverted rclk then enable_mask rclk
                        else 0)
                       (enable_mask rclk))
    else g r.
Proof. reflexivity. Qed.

(** X17.  Enable and disable are read back.  With a register access that
    works and a mask that is not empty, [clk_is_enabled_regmap] answers 1
    after [clk_enable_regmap] and 0 after [clk_disable_regmap], for either
    polarity and whatever the register held. *)
Theorem clk_enable_disable_read_back :
  enable_mask rclk <> 0 ->
  fst (clk_enable_regmap 0 rclk regs) = 0 /\
  clk_is_enabled_regmap 0 rclk (snd (clk_enable_regmap 0 rclk regs)) = 1 /\
  clk_is_enabled_regmap 0 rclk (clk_disable_regmap 0 rclk regs) = 0.
Proof.
  intros Hm. rewrite enable_ok, disable_ok. cbn [fst snd].
  unfold clk_is_enabled_regmap, regmap_read. cbn [negb Z.eqb].
  rewrite !Z.eqb_refl, !updated_masked.
  split; [reflexivity|].
  destruct (enable_is_inverted rclk).
  - rewrite Z.land_0_l, Z.land_diag. cbn.
    destruct (Z.eqb_spec (enable_mask rclk) 0); [contradiction|]. now split.
  - rewrite Z.land_0_l, Z.land_diag. cbn.
    destruct (Z.eqb_spec (enable_mask rclk) 0); [contradiction|]. now split.
Qed.


(** X19.  The last operation wins.  With accesses that work, enabling a
    clock that was just disabled gives the registers that enabling alone
    gives, and disabling one that was just enabled those that disabling
    alone gives; so does repeating either operation. *)
Theorem clk_last_operation_wins r :
  snd (clk_enable_regmap 0 rclk (clk_disable_regmap 0 rclk regs)) r
    = snd (clk_enable_regmap 0 rclk regs) r /\
  clk_disable_regmap 0 rclk (snd (clk_enable_regmap 0 rclk regs)) r
    = clk_disable_regmap 0 rclk regs r /\
  snd (clk_enable_regmap 0 rclk (snd (clk_enable_regmap 0 rclk regs))) r
    = snd (clk_enable_regmap 0 rclk regs) r /\
  clk_disable_regmap 0 rclk (clk_disable_regmap 0 rclk regs) r
    = clk_disable_regmap 0 rclk regs r.
Proof.
  assert (Hbits : forall old v1 v2 mask,
    Z.lor (Z.land (Z.lor (Z.land old (uint_not mask)) (Z.land v1 mask))
                  (uint_not mask))
          (Z.land v2 mask)
    = Z.lor (Z.land old (uint_not mask)) (Z.land v2 mask)).
  { intros old v1 v2 mask. apply Z.bits_inj'. intros n Hn.
    rewrite !Z.lor_spec, !Z.land_spec, Z.lor_spec, !Z.land_spec,
      uint_not_spec by assumption.
    destruct (Z.testbit old n), (Z.testbit v1 n), (Z.testbit v2 n),
      (Z.testbit mask n), (n <? 32); reflexivity. }
  rewrite !enable_ok, !disable_ok. cbn [snd].
  destruct (Z.eqb_spec r (enable_reg rclk)) as [-> | Hne].
  - rewrite !Z.eqb_refl, !Hbits. now repeat split.
  - now repeat split.
Qed.

(** X20.  Polarity.  When the register read works, [clk_is_enabled_regmap]
    answers 0 or 1, and a clock with inverted polarity answers the
    opposite of what a clock with the same register and mask and plain
    polarity answers; when the read fails, the answer is the error of the
    read, for either polarity. *)
Theorem clk_is_enabled_polarity io reg mask hw m :
  let plain :=
    {| hw_addr := hw; regmap := m; enable_reg := reg; enable_mask := mask;
       enable_is_inverted := false |} in
  let inverted :=
    {| hw_addr := hw; regmap := m; enable_reg := reg; enable_mask := mask;
       enable_is_inverted := true |} in
  if io =? 0 then
    (clk_is_enabled_regmap io plain regs = 0 \/
     clk_is_enabled_regmap io plain regs = 1) /\
    clk_is_enabled_regmap io inverted regs
      = 1 - clk_is_enabled_regmap io plain regs
  else
    clk_is_enabled_regmap io plain regs = io /\
    clk_is_enabled_regmap io inverted regs = io.
Proof.
  cbv zeta. unfold clk_is_enabled_regmap, regmap_read.
  cbn [enable_reg enable_mask enable_is_inverted].
  destruct (io =? 0); cbn [negb]; [|now split].
  destruct (Z.land (regs reg) mask =? 0); cbn; split; auto.
Qed.

(** X21.  The empty mask.  A clock whose enable mask is 0 cannot be
    switched: on a 32-bit regmap [clk_enable_regmap] and
    [clk_disable_regmap] leave every register as it was, and
    [clk_is_enabled_regmap] answers 0 for plain polarity and 1 for
    inverted polarity whatever the register holds. *)
Theorem clk_empty_mask r :
  enable_mask rclk = 0 ->
  (forall reg, 0 <= regs reg < 2 ^ 32) ->
  snd (clk_enable_regmap 0 rclk regs) r = regs r /\
  clk_disable_regmap 0 rclk regs r = regs r /\
  clk_is_enabled_regmap 0 rclk regs
    = if enable_is_inverted rclk then 1 else 0.
Proof.
  intros Hm Hregs.
  assert (Hsame : forall v,
    Z.lor (Z.land (regs (enable_reg rclk)) (uint_not 0)) (Z.land v 0)
    = regs (enable_reg rclk)).
  { intros v. rewrite Z.land_0_r, Z.lor_0_r.
    change (uint_not 0) with (Z.ones 32).
    rewrite Z.land_ones by lia. apply Z.mod_small, Hregs. }
  rewrite enable_ok, disable_ok. cbn [snd]. rewrite Hm.
  split; [|split].
  - destruct (Z.eqb_spec r (enable_reg rclk)) as [-> | Hne];
      [apply Hsame | reflexivity].
  - destruct (Z.eqb_spec r (enable_reg rclk)) as [-> | Hne];
      [apply Hsame | reflexivity].
  - unfold clk_is_enabled_regmap, regmap_read. rewrite Hm, Z.land_0_r.
    now destruct (enable_is_inverted rclk).
Qed.

End ClkRegmap.

(** X22.  Membership in the list.  [clk_is_regmap_clk] answers true exactly
    when the clock is not NULL and one of the clocks on the list has its
    address; the NULL clock is answered without taking the lock, and every
    other call takes the lock once and releases it, also when the walk
    stops early at a match. *)
Theorem clk_is_regmap_clk_membership clk_regmap_list hw :
  (fst (clk_is_regmap_clk clk_regmap_list hw) = true <->
   hw <> 0 /\ exists rclk, In rclk clk_regmap_list /\ hw_addr rclk = hw) /\
  snd (clk_is_regmap_clk clk_regmap_list hw)
    = if hw =? 0 then [] else [spin_lock; spin_unlock].
Proof.
  assert (Hscan : list_for_each_entry_match clk_regmap_list hw = true <->
                  exists rclk, In rclk clk_regmap_list /\ hw_addr rclk = hw).
  { induction clk_regmap_list as [|c l IH]; cbn.
    - split; [discriminate | intros (x & [] & _)].
    - destruct (Z.eqb_spec (hw_addr c) hw) as [Heq | Hne].
      + split; [intros _; exists c; auto | reflexivity].
      + rewrite IH. split.
        * intros (x & Hin & Hx). exists x. auto.
        * intros (x & [-> | Hin] & Hx); [contradiction | exists x; auto]. }
  unfold clk_is_regmap_clk.
  destruct (Z.eqb_spec hw 0) as [-> | Hne]; cbn [negb fst snd app].
  - split; [|reflexivity]. split; [discriminate | intros [H _]; contradiction].
  - split; [|reflexivity].
    destruct (list_for_each_entry_match clk_regmap_list hw) eqn:Hm.
    + split; [intros _; split; [assumption | now apply Hscan] | reflexivity].
    + split; [discriminate|]. intros [_ Hex]. apply Hscan in Hex.
      discriminate.
Qed.

(** X23.  Which regmap a clock gets.  [devm_clk_register_regmap] returns
    what [devm_clk_hw_register] returns and changes only the regmap of the
    clock: the device's own regmap if it has one, wins over the parent's;
    a device without one hands on what its parent has, which replaces a
    regmap the caller had set even when the parent has none; only without
    a device, or with a device that has neither regmap nor parent, does
    the regmap the caller set stay. *)
Theorem devm_clk_register_regmap_choice register_ret dev rclk :
  let r := devm_clk_register_regmap register_ret dev rclk in
  fst r = register_ret /\
  hw_addr (snd r) = hw_addr rclk /\
  enable_reg (snd r) = enable_reg rclk /\
  enable_mask (snd r) = enable_mask rclk /\
  enable_is_inverted (snd r) = enable_is_inverted rclk /\
  (forall d own, dev = Some d -> dev_get_regmap d = Some own ->
     regmap (snd r) = Some own) /\
  (forall d parent_regmap, dev = Some d -> dev_get_regmap d = None ->
     dev_parent d = Some parent_regmap -> regmap (snd r) = parent_regmap) /\
  (dev = None \/
   (exists d, dev = Some d /\ dev_get_regmap d = None /\ dev_parent d = None)
   -> regmap (snd r) = regmap rclk).
Proof.
  cbv zeta. unfold devm_clk_register_regmap. cbn [fst snd].
  split; [reflexivity|].
  destruct dev as [[[own|] [p|]]|];
    cbn [is_some dev_get_regmap dev_parent with_regmap hw_addr regmap
         enable_reg enable_mask enable_is_inverted];
    (do 4 (split; [reflexivity|]));
    (split; [intros d o [= <-]; cbn; congruence|]);
    (split; [intros d o [= <-]; cbn; congruence|]);
    intros [Hnone | (d & [= <-] & Hown & Hpar)]; cbn in *; congruence.
Qed.

(** X24.  Runtime PM.  [clk_runtime_get_regmap] never returns a positive
    value: it returns the error of [pm_runtime_get_sync] when that is
    negative and 0 otherwise, also when [pm_runtime_get_sync] returned a
    positive value or was not called because runtime PM is disabled; for
    the same answer of [pm_runtime_enabled], the get and the put make the
    same number of calls, one or none. *)
Theorem clk_runtime_get_put enabled get_ret :
  let r := clk_runtime_get_regmap enabled get_ret in
  fst r <= 0 /\
  (fst r < 0 <-> enabled = true /\ get_ret < 0) /\
  (fst r < 0 -> fst r = get_ret) /\
  snd r = (if enabled then [pm_runtime_get_sync] else []) /\
  clk_runtime_put_regmap enabled
    = (if enabled then [pm_runtime_put_sync] else []).
Proof.
  cbv zeta. unfold clk_runtime_get_regmap, clk_runtime_put_regmap.
  destruct enabled; [destruct (Z.ltb_spec get_ret 0)|]; cbn [fst snd];
    repeat split; intros; try lia; try reflexivity; try tauto;
    try discriminate.
  all: destruct H0; try discriminate; lia.
Qed.

(** * The further properties on concrete inputs *)

Section MoreRuns.

#[local] Existing Instance upstream_headers.
#[local] Existing Instance upstream_drm_headers.

Lemma prepare_on_healthy_host_witness :
  prepared probed_panel = false /\
  healthy (answering 0) probed_panel (List.length on_steps) /\
  fst (samsung_ea8074_prepare (answering 0) probed_panel) = 0 /\
  prepared (snd (samsung_ea8074_prepare (answering 0) probed_panel)) = true /\
  reset_gpio (snd (samsung_ea8074_prepare (answering 0) probed_panel)) = 0.
Proof.
  split; [reflexivity|]. split; [apply answering_healthy|].
  destruct (prepare_on_healthy_host (answering 0) probed_panel eq_refl
              (answering_healthy 0 probed_panel _))
    as (H0 & Hp & Hg & _).
  split; [exact H0|]. split; [exact Hp | exact Hg].
Defined.

Lemma prepare_result_tells_state_witness :
  prepared probed_panel = false /\
  fst (samsung_ea8074_prepare (failing 4 (- EIO)) probed_panel) < 0 /\
  prepared (snd (samsung_ea8074_prepare (failing 4 (- EIO)) probed_panel))
    = false /\
  reset_gpio (snd (samsung_ea8074_prepare (failing 4 (- EIO)) probed_panel))
    = 1.
Proof.
  split; [reflexivity|].
  destruct (prepare_result_tells_state (failing 4 (- EIO)) probed_panel
              eq_refl) as [(H0 & _) | H].
  - discriminate H0.
  - exact H.
Defined.

Lemma prepare_retry_after_failure_witness :
  prepared probed_panel = false /\
  fails_at (failing 4 (- EIO)) probed_panel 4 /\
  fst (samsung_ea8074_prepare (failing 4 (- EIO))
         (snd (samsung_ea8074_prepare (failing 4 (- EIO)) probed_panel)))
    = 0 /\
  transfers (trace (snd (samsung_ea8074_prepare (failing 4 (- EIO))
         (snd (samsung_ea8074_prepare (failing 4 (- EIO)) probed_panel)))))
    = firstn 5 on_cmds ++ on_cmds.
Proof.
  assert (Hf : fails_at (failing 4 (- EIO)) probed_panel 4)
    by (apply failing_fails_at; [unfold EIO; lia | reflexivity]).
  assert (Hlater : forall i, (i < List.length on_steps)%nat ->
            0 <= status (failing 4 (- EIO) (xfers probed_panel + 5 + i))).
  { intros i _. unfold failing. cbn [xfers probed_panel probed trace transfers
      List.length Nat.add]. cbn. lia. }
  split; [reflexivity|]. split; [exact Hf|].
  destruct (prepare_retry_after_failure (failing 4 (- EIO)) probed_panel 4
              (seq_write MIPI_DCS_WRITE_CONTROL_DISPLAY [0x20] short_settle)
              eq_refl eq_refl Hf Hlater)
    as (_ & H0 & _ & _ & _ & _ & Ht).
  split; [exact H0 | exact Ht].
Defined.

Lemma prepare_then_unprepare_witness :
  prepared probed_panel = false /\
  healthy (answering 0) probed_panel (List.length on_steps + 2) /\
  prepared (snd (samsung_ea8074_unprepare (answering 0)
              (snd (samsung_ea8074_prepare (answering 0) probed_panel))))
    = false /\
  reset_gpio (snd (samsung_ea8074_unprepare (answering 0)
              (snd (samsung_ea8074_prepare (answering 0) probed_panel))))
    = 1.
Proof.
  split; [reflexivity|]. split; [apply answering_healthy|].
  destruct (prepare_then_unprepare (answering 0) probed_panel eq_refl
              (answering_healthy 0 probed_panel _))
    as (_ & _ & Hp & Hg & _).
  split; [exact Hp | exact Hg].
Defined.

Lemma unprepare_always_asserts_reset_witness :
  prepared prepared_panel = true /\
  fst (samsung_ea8074_unprepare (failing 1 (- EIO)) prepared_panel) = 0 /\
  reset_gpio (snd (samsung_ea8074_unprepare (failing 1 (- EIO))
                     prepared_panel)) = 1 /\
  transfers (trace (snd (samsung_ea8074_unprepare (failing 1 (- EIO))
                     prepared_panel)))
    = [set_display_off; enter_sleep_mode].
Proof.
  split; [reflexivity|].
  destruct (unprepare_always_asserts_reset (failing 1 (- EIO)) prepared_panel
              eq_refl) as (H0 & _ & Hg & es & Htr & Hes).
  split; [exact H0|]. split; [exact Hg|].
  rewrite Htr, !transfers_app, Hes. reflexivity.
Defined.

Lemma bl_update_status_sends_request_witness :
  0 <= 512 <= 65535 /\
  0 <= status (answering 0 (xfers probed_panel)) /\
  fst (samsung_ea8074_bl_update_status (answering 0) 512 probed_panel) = 0 /\
  trace (snd (samsung_ea8074_bl_update_status (answering 0) 512
                probed_panel))
    = [Xfer (set_display_brightness_large 512)].
Proof.
  assert (Hr : 0 <= 512 <= 65535) by lia.
  assert (Hs : 0 <= status (answering 0 (xfers probed_panel)))
    by (cbn; lia).
  split; [exact Hr|]. split; [exact Hs|].
  exact (bl_update_status_sends_request (answering 0) 512 probed_panel Hr Hs).
Defined.

(** Bit 1, the burst-mode flag, across a failed brightness write. *)
Lemma backlight_touches_only_lpm_witness :
  0 <= mode_flags probed_panel < 2 ^ 64 /\
  0 <= MIPI_DSI_MODE_LPM < 2 ^ 64 /\
  Z.testbit MIPI_DSI_MODE_LPM 1 = false /\
  Z.testbit
    (mode_flags (snd (samsung_ea8074_bl_update_status (failing 0 (- EIO)) 512
                        probed_panel))) 1 = true.
Proof.
  assert (Hf : 0 <= mode_flags probed_panel < 2 ^ 64)
    by (split; [discriminate | reflexivity]).
  assert (Hm : 0 <= MIPI_DSI_MODE_LPM < 2 ^ 64)
    by (split; [discriminate | reflexivity]).
  assert (Hn : 0 <= 1) by discriminate.
  split; [exact Hf|]. split; [exact Hm|]. split; [reflexivity|].
  destruct (backlight_touches_only_lpm (failing 0 (- EIO)) 512 probed_panel 1
              Hf Hm Hn eq_refl) as [H1 _].
  rewrite H1. reflexivity.
Defined.

Lemma backlight_success_after_failure_sets_lpm_witness :
  status (failing 0 (- EIO) (xfers probed_panel)) < 0 /\
  0 <= status (failing 0 (- EIO) (S (xfers probed_panel))) /\
  lpm (snd (samsung_ea8074_bl_update_status (failing 0 (- EIO)) 512
              (snd (samsung_ea8074_bl_update_status (failing 0 (- EIO)) 512
                      probed_panel)))) = 0x800.
Proof.
  assert (H0 : status (failing 0 (- EIO) (xfers probed_panel)) < 0)
    by reflexivity.
  assert (H1 : 0 <= status (failing 0 (- EIO) (S (xfers probed_panel))))
    by discriminate.
  split; [exact H0|]. split; [exact H1|].
  destruct (backlight_success_after_failure_sets_lpm (failing 0 (- EIO))
              512 512 probed_panel H0 H1) as (_ & _ & Hl & _).
  exact Hl.
Defined.

Lemma probe_success_witness :
  fst (samsung_ea8074_probe kernel_ok unbound) = 0 /\
  panel_added (snd (samsung_ea8074_probe kernel_ok unbound)) = true /\
  dsi_mode_flags (snd (samsung_ea8074_probe kernel_ok unbound)) = 0xc02.
Proof.
  assert (Ha : 0 <= attach_ret kernel_ok) by discriminate.
  destruct (probe_success kernel_ok unbound eq_refl eq_refl eq_refl Ha)
    as (H0 & Hp & _ & _ & Hf & _).
  split; [exact H0|]. split; [exact Hp | exact Hf].
Defined.

(** The attach fails with -EIO after the panel was added. *)
Lemma probe_failure_leaves_no_panel_witness :
  panel_added unbound = false /\
  fst (samsung_ea8074_probe kernel_attach_fails unbound) = - EIO /\
  calls (snd (samsung_ea8074_probe kernel_attach_fails unbound))
    = probe_calls ++ [drm_panel_remove] /\
  panel_added (snd (samsung_ea8074_probe kernel_attach_fails unbound))
    = false.
Proof.
  split; [reflexivity|].
  destruct (probe_failure_leaves_no_panel kernel_attach_fails unbound eq_refl)
    as [_ Hfail].
  destruct (Hfail eq_refl eq_refl eq_refl eq_refl) as [Hr Hc].
  split; [exact Hr|]. split; [exact Hc | reflexivity].
Defined.

Lemma probe_then_remove_witness :
  0 <= attach_ret kernel_ok /\
  panel_added
    (samsung_ea8074_remove kernel_ok
       (snd (samsung_ea8074_probe kernel_ok unbound))) = false /\
  calls
    (samsung_ea8074_remove kernel_ok
       (snd (samsung_ea8074_probe kernel_ok unbound)))
    = probe_calls ++ [mipi_dsi_detach; drm_panel_remove].
Proof.
  assert (Ha : 0 <= attach_ret kernel_ok) by discriminate.
  split; [exact Ha|].
  destruct (probe_then_remove kernel_ok unbound eq_refl eq_refl eq_refl Ha)
    as (Hp & Hc & _).
  split; [exact Hp | exact Hc].
Defined.

(** A gate bit at register 0x1000, plain polarity, register zeroed. *)
Lemma clk_enable_disable_read_back_witness :
  enable_mask sample_clk <> 0 /\
  clk_is_enabled_regmap 0 sample_clk
    (snd (clk_enable_regmap 0 sample_clk zeroed)) = 1 /\
  clk_is_enabled_regmap 0 sample_clk
    (clk_disable_regmap 0 sample_clk zeroed) = 0.
Proof.
  assert (Hm : enable_mask sample_clk <> 0) by discriminate.
  split; [exact Hm|].
  destruct (clk_enable_disable_read_back sample_clk zeroed Hm)
    as (_ & H1 & H0).
  split; [exact H1 | exact H0].
Defined.

Lemma clk_empty_mask_witness :
  enable_mask maskless_clk = 0 /\
  (forall reg, 0 <= zeroed reg < 2 ^ 32) /\
  clk_is_enabled_regmap 0 maskless_clk zeroed = 1.
Proof.
  assert (Hz : forall reg, 0 <= zeroed reg < 2 ^ 32)
    by (intros reg; split; [discriminate | reflexivity]).
  split; [reflexivity|]. split; [exact Hz|].
  destruct (clk_empty_mask maskless_clk zeroed 0 eq_refl Hz) as (_ & _ & H).
  exact H.
Defined.

End MoreRuns.
